(** * pipx [commands/run.py]: a shallow embedding and its properties

    The module under study is [src/pipx/commands/run.py].  Its functions are
    embedded here one by one, with the same names:

    - Python [str] values are [string]s; an [ascii] stands for the code
      point of the same number (0..255);
    - [pathlib.Path] values are lists of path components;
    - the filesystem is a finite map from paths to nodes (stdpp's [gmap]);
    - code with effects runs in a small state-and-exception monad over the
      [world] (filesystem, clock, trace of observable events);
    - a process replacement ([exec_app], [run_app]) is a terminal outcome;
    - the collaborators that live outside the module (the provisioner
      [Venv], [packaging], [requests], [bs4], ...) are the fields of the
      class [Collaborators]. *)

From Stdlib Require Import ZArith NArith Ascii String List Lia Bool.
From stdpp Require Import base gmap strings list fin_maps.

Local Open Scope string_scope.

(* ===================================================================== *)
(** ** Python [str] methods used by the module *)
(* ===================================================================== *)

Module PyStr.

(** [str.isspace] on one character, for the code points below 256:
    TAB..CR, FS..US, SPACE, NEL and NBSP. *)
Definition isspace (c : ascii) : bool :=
  let n := N_of_ascii c in
  ((9 <=? n) && (n <=? 13) || (28 <=? n) && (n <=? 32)
   || (n =? 133) || (n =? 160))%N.

(** The line boundaries of [str.splitlines] below 256:
    LF, VT, FF, CR, FS, GS, RS and NEL. *)
Definition is_linebreak (c : ascii) : bool :=
  let n := N_of_ascii c in
  ((10 <=? n) && (n <=? 13) || (28 <=? n) && (n <=? 30) || (n =? 133))%N.

Definition CR : ascii := ascii_of_N 13.
Definition LF : ascii := ascii_of_N 10.

Definition cons_line (c : ascii) (ls : list string) : list string :=
  match ls with
  | [] => [String c EmptyString]
  | l :: ls' => String c l :: ls'
  end.

(** [s.splitlines()]: no line for the empty string, no empty last line
    after a final boundary, CR LF is one boundary. *)
Fixpoint splitlines (s : string) : list string :=
  match s with
  | EmptyString => []
  | String c rest =>
      if is_linebreak c then
        match rest with
        | String c' rest' =>
            if Ascii.eqb c CR && Ascii.eqb c' LF
            then EmptyString :: splitlines rest'
            else EmptyString :: splitlines rest
        | EmptyString => [EmptyString]
        end
      else cons_line c (splitlines rest)
  end.

(** [s.startswith(p)] *)
Fixpoint startswith (s p : string) {struct p} : bool :=
  match p with
  | EmptyString => true
  | String a p' =>
      match s with
      | EmptyString => false
      | String b s' => Ascii.eqb a b && startswith s' p'
      end
  end.

(** [s[1:]] *)
Definition tail (s : string) : string :=
  match s with
  | EmptyString => EmptyString
  | String _ r => r
  end.

Fixpoint lstrip (s : string) : string :=
  match s with
  | EmptyString => EmptyString
  | String c r => if isspace c then lstrip r else s
  end.

Fixpoint rstrip (s : string) : string :=
  match s with
  | EmptyString => EmptyString
  | String c r =>
      match rstrip r with
      | EmptyString => if isspace c then EmptyString else String c EmptyString
      | r' => String c r'
      end
  end.

(** [s.strip()] *)
Definition strip (s : string) : string := rstrip (lstrip s).

(** [sep.join(parts)] *)
Definition join (sep : string) (parts : list string) : string :=
  String.concat sep parts.

(** [s.split()]: the maximal runs of non-space characters.  [split_ws]
    keeps the word being read at the head of its result. *)
Fixpoint split_ws (s : string) : list string :=
  match s with
  | EmptyString => [EmptyString]
  | String c r =>
      if isspace c then EmptyString :: split_ws r
      else cons_line c (split_ws r)
  end.

Definition nonempty (s : string) : bool :=
  match s with EmptyString => false | _ => true end.

Definition split (s : string) : list string :=
  List.filter nonempty (split_ws s).

(** [s[:n]] *)
Definition slice_to (n : nat) (s : string) : string := String.substring 0 n s.

(** [s.endswith(p)] *)
Definition endswith (s p : string) : bool :=
  startswith (String.rev s) (String.rev p).

End PyStr.

(* ===================================================================== *)
(** ** [hashlib.sha256] and [str.encode] *)
(* ===================================================================== *)

Module Hashlib.

Local Open Scope N_scope.

(** [s.encode()]: UTF-8; a code point below 128 is one byte, the others
    below 256 are two. *)
Definition utf8 (c : ascii) : list N :=
  let n := N_of_ascii c in
  if n <? 128 then [n] else [192 + n / 64; 128 + n mod 64].

Fixpoint encode (s : string) : list N :=
  match s with
  | EmptyString => []
  | String c r => utf8 c ++ encode r
  end.

(** 32-bit words as [N] with the wrap-around written out. *)
Definition w32 (x : N) : N := x mod 4294967296.
Definition add32 (x y : N) : N := w32 (x + y).
Definition rotr (n x : N) : N :=
  N.lor (N.shiftr x n) (w32 (N.shiftl x (32 - n))).
Definition not32 (x : N) : N := 4294967295 - x.

Definition Ch (x y z : N) : N := N.lxor (N.land x y) (N.land (not32 x) z).
Definition Maj (x y z : N) : N :=
  N.lxor (N.lxor (N.land x y) (N.land x z)) (N.land y z).
Definition bsig0 (x : N) : N := N.lxor (N.lxor (rotr 2 x) (rotr 13 x)) (rotr 22 x).
Definition bsig1 (x : N) : N := N.lxor (N.lxor (rotr 6 x) (rotr 11 x)) (rotr 25 x).
Definition ssig0 (x : N) : N := N.lxor (N.lxor (rotr 7 x) (rotr 18 x)) (N.shiftr x 3).
Definition ssig1 (x : N) : N := N.lxor (N.lxor (rotr 17 x) (rotr 19 x)) (N.shiftr x 10).

(** The constants of the standard are fractional parts of roots of the
    first primes, on 32 bits: cube roots of the first 64 primes for the
    round constants, square roots of the first 8 for the initial hash. *)
Definition is_prime (n : N) : bool :=
  (2 <=? n) &&
  forallb (fun d => negb (n mod d =? 0))
          (List.map N.of_nat (seq 2 (N.to_nat (N.sqrt n) - 1))).

Definition primes : list N :=
  List.filter is_prime (List.map N.of_nat (seq 2 310)).

(** The largest [r] below [2 ^ bits] with [r ^ k <= x]. *)
Fixpoint iroot (k x : N) (bits : nat) (r : N) : N :=
  match bits with
  | O => r
  | S b =>
      let candidate := r + 2 ^ N.of_nat b in
      iroot k x b (if candidate ^ k <=? x then candidate else r)
  end.

Definition K : list N :=
  List.map (fun p => w32 (iroot 3 (p * 2 ^ 96) 40 0)) primes.

Definition H0 : list N :=
  List.map (fun p => w32 (iroot 2 (p * 2 ^ 64) 40 0)) (firstn 8 primes).

(** Padding: the byte 0x80, zero bytes up to 56 modulo 64, and the bit
    length of the message on 8 bytes, big-endian. *)
Definition be_bytes (width : nat) (x : N) : list N :=
  List.map (fun i => (x / 256 ^ N.of_nat i) mod 256) (List.rev (seq 0 width)).

Definition pad (msg : list N) : list N :=
  let len := N.of_nat (length msg) in
  let zeros := N.to_nat ((119 - len mod 64) mod 64) in
  msg ++ [128] ++ repeat 0 zeros ++ be_bytes 8 (8 * len).

Fixpoint words (n : nat) (bytes : list N) : list N :=
  match n, bytes with
  | S n', a :: b :: c :: d :: rest =>
      (((a * 256 + b) * 256 + c) * 256 + d) :: words n' rest
  | _, _ => []
  end.

(** The message schedule, most recent word first. *)
Fixpoint schedule (n : nat) (w : list N) : list N :=
  match n with
  | O => w
  | S n' =>
      let x := add32 (add32 (ssig1 (nth 1 w 0)) (nth 6 w 0))
                     (add32 (ssig0 (nth 14 w 0)) (nth 15 w 0)) in
      schedule n' (x :: w)
  end.

Definition round (st : list N) (kw : N * N) : list N :=
  match st with
  | [a; b; c; d; e; f; g; h] =>
      let t1 := add32 (add32 (add32 h (bsig1 e)) (add32 (Ch e f g) (fst kw)))
                      (snd kw) in
      let t2 := add32 (bsig0 a) (Maj a b c) in
      [add32 t1 t2; a; b; c; add32 d t1; e; f; g]
  | _ => st
  end.

Definition compress (h : list N) (block : list N) : list N :=
  let w := List.rev (schedule 48 (List.rev (words 16 block))) in
  let st := fold_left round (combine K w) h in
  List.map (fun p => add32 (fst p) (snd p)) (combine h st).

Fixpoint blocks (n : nat) (h : list N) (bytes : list N) : list N :=
  match n with
  | O => h
  | S n' => blocks n' (compress h (firstn 64 bytes)) (skipn 64 bytes)
  end.

Definition digest_words (msg : list N) : list N :=
  let p := pad msg in
  blocks (length p / 64) H0 p.

Definition hexdigit (d : N) : ascii :=
  if d <? 10 then ascii_of_N (48 + d) else ascii_of_N (87 + d).

Definition hex_word (x : N) : string :=
  string_of_list_ascii
    (List.map (fun i => hexdigit ((x / 16 ^ N.of_nat i) mod 16))
              (List.rev (seq 0 8))).

(** The hash object: [hashlib.sha256()] starts it empty, [update]
    appends to the data fed so far, [hexdigest] hashes all of it. *)
Record sha256 := { fed : list N }.
Definition new : sha256 := {| fed := [] |}.
Definition update (m : sha256) (data : list N) : sha256 :=
  {| fed := fed m ++ data |}.
Definition hexdigest (m : sha256) : string :=
  String.concat EmptyString (List.map hex_word (digest_words (fed m))).

End Hashlib.

(* ===================================================================== *)
(** ** Paths, the filesystem, and the monad of effects *)
(* ===================================================================== *)

(** A [pathlib.Path] is the list of its components, outermost first. *)
Definition Path := list string.

(** [p / name] *)
Definition pjoin (p : Path) (name : string) : Path := (p ++ [name])%list.
Infix "//" := pjoin (at level 40, left associativity).

(** [str(p)] *)
Definition path_str (p : Path) : string := PyStr.join "/" p.

(** Splitting at a separator character, as [PurePosixPath] does when it
    parses a string. *)
Fixpoint split_on (sep : ascii) (s : string) : list string :=
  match s with
  | EmptyString => [EmptyString]
  | String c r =>
      if Ascii.eqb c sep then EmptyString :: split_on sep r
      else PyStr.cons_line c (split_on sep r)
  end.

(** [Path(s)]: empty and [.] components are dropped; an absolute path keeps
    the root as its first component. *)
Definition Path_of_str (s : string) : Path :=
  ((if PyStr.startswith s "/" then ["/"] else []) ++
   List.filter (fun c => negb (String.eqb c "" || String.eqb c "."))
               (split_on "/" s))%list.

(** Times are counted in microseconds since the epoch, the resolution of
    [datetime.datetime.now()]. *)
Inductive node :=
| File (st_ctime : Z) (text : string)
| Dir (st_ctime : Z).

Definition node_ctime (n : node) : Z :=
  match n with File t _ => t | Dir t => t end.

(** What an invocation does that can be seen from outside. *)
Inductive event :=
| Print (text : string)
| Log (level : string) (text : string)
| HttpGet (url : string)
| UrlOpen (url : string)
| SubprocessRun (argv : list string).

Record world := World {
  fs : gmap Path node;
  clock : Z;
  trace : list event
}.

Inductive exn :=
| PipxError (msg : string)
| FileNotFoundError (p : Path)
| IsADirectoryError (p : Path)
| NotADirectoryError (p : Path)
| TypeError (msg : string)
| KeyError (key : string)
| IndexError (msg : string)
| InvalidVersion (text : string)
| CollaboratorError (msg : string).

(** A call returns a value, raises, or replaces the process image. *)
Inductive outcome (A : Type) :=
| Ret (a : A)
| Raise (e : exn)
| Replaced (argv : list string).
Arguments Ret {A} a.
Arguments Raise {A} e.
Arguments Replaced {A} argv.

Definition M (A : Type) : Type := world -> outcome A * world.

Definition ret {A} (a : A) : M A := fun w => (Ret a, w).
Definition raise {A} (e : exn) : M A := fun w => (Raise e, w).
Definition bind {A B} (m : M A) (k : A -> M B) : M B :=
  fun w =>
    match m w with
    | (Ret a, w') => k a w'
    | (Raise e, w') => (Raise e, w')
    | (Replaced argv, w') => (Replaced argv, w')
    end.

Notation "x <- c1 ;; c2" := (bind c1 (fun x => c2))
  (at level 100, c1 at next level, right associativity).
Notation "c1 ;; c2" := (bind c1 (fun _ => c2))
  (at level 100, right associativity).

(** The type of a call annotated [NoReturn]. *)
Definition NoReturn := Empty_set.

Definition get {A} (f : world -> A) : M A := fun w => (Ret (f w), w).
Definition emit (e : event) : M unit :=
  fun w => (Ret tt, World (fs w) (clock w) (trace w ++ [e])%list).
Definition set_fs (f : gmap Path node -> gmap Path node) : M unit :=
  fun w => (Ret tt, World (f (fs w)) (clock w) (trace w)).

Definition print (text : string) : M unit := emit (Print text).
Definition logger_info (text : string) : M unit := emit (Log "INFO" text).
Definition logger_warning (text : string) : M unit := emit (Log "WARNING" text).
Definition logger_debug (text : string) : M unit := emit (Log "DEBUG" text).

Fixpoint for_each {A} (xs : list A) (body : A -> M unit) : M unit :=
  match xs with
  | [] => ret tt
  | x :: xs' => body x ;; for_each xs' body
  end.

Module FS.

(** [p.exists()] *)
Definition exists_ (p : Path) : M bool :=
  get (fun w => bool_decide (is_Some (fs w !! p))).

(** [p.stat().st_ctime] *)
Definition stat_ctime (p : Path) : M Z :=
  n <- get (fun w => fs w !! p) ;;
  match n with
  | Some n => ret (node_ctime n)
  | None => raise (FileNotFoundError p)
  end.

(** The directory an entry is created in must be there.  The empty path
    is the working directory, an entry like the others. *)
Definition parent (p : Path) : Path := removelast p.

Definition check_parent (p : Path) : M unit :=
  n <- get (fun w => fs w !! parent p) ;;
  match n with
  | Some (Dir _) => ret tt
  | Some (File _ _) => raise (NotADirectoryError p)
  | None => raise (FileNotFoundError p)
  end.

(** [open(p, "w")] closed at once: the file is created or truncated. *)
Definition open_w (p : Path) : M unit :=
  n <- get (fun w => fs w !! p) ;;
  match n with
  | Some (Dir _) => raise (IsADirectoryError p)
  | Some (File _ _) =>
      now <- get clock ;; set_fs (insert p (File now ""))
  | None =>
      check_parent p ;;
      now <- get clock ;; set_fs (insert p (File now ""))
  end.

(** [p.touch()]: an existing entry keeps its content, a new one is an
    empty file. *)
Definition touch (p : Path) : M unit :=
  n <- get (fun w => fs w !! p) ;;
  now <- get clock ;;
  match n with
  | Some (Dir _) => set_fs (insert p (Dir now))
  | Some (File _ text) => set_fs (insert p (File now text))
  | None => check_parent p ;; set_fs (insert p (File now ""))
  end.

(** [p.read_text(encoding="utf-8")] *)
Definition read_text (p : Path) : M string :=
  n <- get (fun w => fs w !! p) ;;
  match n with
  | Some (File _ text) => ret text
  | Some (Dir _) => raise (IsADirectoryError p)
  | None => raise (FileNotFoundError p)
  end.

Definition is_child (d p : Path) : Prop := parent p = d /\ p <> [].

#[export] Instance is_child_dec d p : Decision (is_child d p).
Proof. unfold is_child. apply _. Defined.

(** [p.iterdir()]: the entries directly inside the directory. *)
Definition iterdir (d : Path) : M (list Path) :=
  n <- get (fun w => fs w !! d) ;;
  match n with
  | Some (Dir _) =>
      get (fun w => List.filter (fun p => bool_decide (is_child d p))
                                (map fst (map_to_list (fs w))))
  | Some (File _ _) => raise (NotADirectoryError d)
  | None => raise (FileNotFoundError d)
  end.

(** Removal of a whole subtree. *)
Definition rmtree (d : Path) (f : gmap Path node) : gmap Path node :=
  filter (fun kv => ~ d `prefix_of` fst kv) f.

End FS.

(* ===================================================================== *)
(** ** The collaborators of the module *)
(* ===================================================================== *)

(** [packaging.requirements.Requirement(text)]: the requirement, of which
    the module reads [.name] and [str(req)], or [InvalidRequirement] with
    its complaint. *)
Inductive parsed_requirement :=
| Req (name : string) (normal : string)
| InvalidRequirement (complaint : string).

(** What the module imports and does not define: constants of
    [pipx.constants], helpers of [pipx.util], [packaging], [shutil],
    [urllib], [requests], [bs4], and the provisioner [pipx.venv.Venv].
    A [Venv] is identified by its root directory. *)
Class Collaborators := {
  WINDOWS : bool;
  TEMP_VENV_EXPIRATION_THRESHOLD_DAYS : Z;
  PIPX_VENV_CACHEDIR : Path;
  PIPX_LOCAL_VENVS : Path;
  hazard : string;
  pipx_wrap : string -> string;
  get_pypackage_bin_path : string -> Path;
  Requirement : string -> parsed_requirement;
  Version : Type;
  version_parse_str : string -> option Version;
  version_gt : Version -> Version -> bool;
  which : string -> world -> option string;
  urlparse_scheme : string -> string;
  urlopen_read : string -> string + string;
  requests_get : string -> string + string;
  select_one_text : string -> string -> option string;
  package_name_from_spec : string -> string -> list string -> bool -> M string;
  venv_bin_path : Path -> Path;
  venv_python_path : Path -> Path;
  venv_create_venv : Path -> string -> bool -> list string -> list string -> M unit;
  venv_install_package :
    Path -> string -> bool -> string -> string -> list string -> M unit;
  venv_install_unmanaged_packages :
    Path -> string -> bool -> list string -> list string -> M unit;
  venv_main_package : Path -> world -> option string * list string;
  venv_has_app : Path -> string -> string -> world -> bool;
  venv_package_version : Path -> string -> world -> option string
}.

(** Modelled from the spec: [pipx.util.exec_app], the process launcher of
    section 6, "never returns on success"; the process image is replaced
    by the command. *)
Definition exec_app (cmd : list string) : M NoReturn :=
  fun w => (Replaced cmd, w).

(** Modelled from the spec: [pipx.util.rmdir], which deletes "the entry's
    entire directory subtree"; a path that is no directory is left alone. *)
Definition rmdir (p : Path) : M unit :=
  n <- get (fun w => fs w !! p) ;;
  match n with
  | Some (Dir _) => set_fs (FS.rmtree p)
  | _ => ret tt
  end.

(** Modelled from the spec: [pipx.util.run_pypackage_bin], which launches
    the binary of the project-local package directory. *)
Definition run_pypackage_bin (bin_path : Path) (args : list string) : M NoReturn :=
  exec_app (path_str bin_path :: args).

(** [repr] of a string without quotes or escapes inside. *)
Definition repr (s : string) : string := "'" ++ s ++ "'".

(** [time.mktime(datetime.datetime.now().timetuple())]: a time tuple has
    no field below the second, so the clock is read in whole seconds. *)
Definition sec (n : Z) : Z := (n * 1000000)%Z.
Definition mktime_now : M Z :=
  now <- get clock ;; ret (sec (now / 1000000)).

Definition lift {A} (r : exn + A) : M A :=
  match r with inl e => raise e | inr a => ret a end.

(* ===================================================================== *)
(** ** The module [pipx/commands/run.py] *)
(* ===================================================================== *)

Definition VENV_EXPIRED_FILENAME : string := "pipx_expired_venv".

Definition NL : string := String PyStr.LF "".

(** [APP_NOT_FOUND_ERROR_MESSAGE.format(app=.., package_name=..,
    app_lines=..)] *)
Definition APP_NOT_FOUND_ERROR_MESSAGE (app package_name app_lines : string)
  : string :=
  "'" ++ app ++ "' executable script not found in package '" ++ package_name
  ++ "'." ++ NL ++ "Available executable scripts:" ++ NL ++ "    " ++ app_lines.

Section Run.

Context `{C : Collaborators}.

(** *** Requirement extraction *)

(** A line that does not start with [#] is skipped; otherwise its
    content is what follows the marker, stripped. *)
Definition is_comment (line : string) : bool := PyStr.startswith line "#".
Definition line_content (line : string) : string :=
  PyStr.strip (PyStr.tail line).

(** The first loop: it consumes the iterator up to and including the
    header line; [None] is the [else] branch of the [for]. *)
Fixpoint find_header (lines : list string) : option (list string) :=
  match lines with
  | [] => None
  | line :: lines' =>
      if negb (is_comment line) then find_header lines'
      else if String.eqb (line_content line) "Requirements:" then Some lines'
      else find_header lines'
  end.

(** The second loop, on what is left of the iterator. *)
Fixpoint collect (lines : list string) (requirements : list string)
  : exn + list string :=
  match lines with
  | [] => inr requirements
  | line :: lines' =>
      if negb (is_comment line) then inr requirements
      else if negb (PyStr.nonempty (line_content line)) then inr requirements
      else
        match Requirement (line_content line) with
        | InvalidRequirement e =>
            inl (PipxError ("Invalid requirement " ++ line_content line
                            ++ ": " ++ e))
        | Req _ normal => collect lines' (requirements ++ [normal])%list
        end
  end.

Definition _get_requirements_from_script (content : string)
  : exn + option (list string) :=
  match find_header (PyStr.splitlines content) with
  | None => inr None
  | Some lines =>
      match collect lines [] with
      | inl e => inl e
      | inr requirements => inr (Some requirements)
      end
  end.

(** *** The fingerprint *)

Definition _get_temporary_venv_path
  (requirements : list string) (python : string)
  (pip_args venv_args : list string) : Path :=
  let m := Hashlib.new in
  let m := Hashlib.update m (Hashlib.encode (PyStr.join "" requirements)) in
  let m := Hashlib.update m (Hashlib.encode python) in
  let m := Hashlib.update m (Hashlib.encode (PyStr.join "" pip_args)) in
  let m := Hashlib.update m (Hashlib.encode (PyStr.join "" venv_args)) in
  let venv_folder_name := PyStr.slice_to 15 (Hashlib.hexdigest m) in
  PIPX_VENV_CACHEDIR // venv_folder_name.

(** *** The cache lifecycle *)

Definition _is_temporary_venv_expired (venv_dir : Path) : M bool :=
  created_time_sec <- FS.stat_ctime venv_dir ;;
  current_time_sec <- mktime_now ;;
  let age := (current_time_sec - created_time_sec)%Z in
  let expiration_threshold_sec :=
    sec (60 * 60 * 24 * TEMP_VENV_EXPIRATION_THRESHOLD_DAYS) in
  if (age >? expiration_threshold_sec)%Z then ret true
  else FS.exists_ (venv_dir // VENV_EXPIRED_FILENAME).

Definition _remove_all_expired_venvs : M unit :=
  entries <- FS.iterdir PIPX_VENV_CACHEDIR ;;
  for_each entries (fun venv_dir =>
    expired <- _is_temporary_venv_expired venv_dir ;;
    if expired then
      logger_info ("Removing expired venv " ++ path_str venv_dir) ;;
      rmdir venv_dir
    else ret tt).

(** [venv] is given by its root, [venv.root]. *)
Definition _prepare_venv_cache
  (venv : Path) (bin_path : option Path) (use_cache : bool) : M unit :=
  let venv_dir := venv in
  (if negb use_cache then
     present <- match bin_path with
                | None => ret true
                | Some p => FS.exists_ p
                end ;;
     if present then
       logger_info ("Removing cached venv " ++ path_str venv_dir) ;;
       rmdir venv_dir
     else ret tt
   else ret tt) ;;
  _remove_all_expired_venvs.

(** Modelled from the spec: [Venv.run_app], which launches the
    application's executable of the environment with the arguments. *)
Definition run_app (venv : Path) (app app_filename : string)
  (app_args : list string) : M NoReturn :=
  exec_app (path_str (venv_bin_path venv // app_filename) :: app_args).

(** *** Script runs *)

Definition run_script (content : string) (app_args : list string)
  (python : string) (pip_args venv_args : list string)
  (verbose use_cache : bool) : M NoReturn :=
  requirements <- lift (_get_requirements_from_script content) ;;
  match requirements with
  | None => exec_app ([python; "-c"; content] ++ app_args)%list
  | Some requirements =>
      let venv_dir :=
        _get_temporary_venv_path requirements python pip_args venv_args in
      _prepare_venv_cache venv_dir None use_cache ;;
      present <- FS.exists_ venv_dir ;;
      (if present then
         logger_info ("Reusing cached venv " ++ path_str venv_dir)
       else
         venv_create_venv venv_dir python verbose venv_args pip_args ;;
         venv_install_unmanaged_packages venv_dir python verbose
                                         requirements pip_args) ;;
      exec_app ([path_str (venv_python_path venv_dir); "-c"; content]
                ++ app_args)%list
  end.

(** *** Package runs *)

Definition usage_line (package_or_url a : string) : string :=
  a ++ " - usage: 'pipx run --spec " ++ package_or_url ++ " " ++ a
    ++ " [arguments?]'".

Definition _download_and_run
  (venv_dir : Path) (package_or_url app app_filename : string)
  (app_args : list string) (python : string)
  (pip_args venv_args : list string) (use_cache verbose : bool)
  : M NoReturn :=
  venv_create_venv venv_dir python verbose venv_args pip_args ;;
  main <- get (venv_main_package venv_dir) ;;
  package_name <- match fst main with
                  | Some package => ret package
                  | None => package_name_from_spec package_or_url python
                                                   pip_args verbose
                  end ;;
  venv_install_package venv_dir python verbose package_name package_or_url
                       pip_args ;;
  found <- get (venv_has_app venv_dir app app_filename) ;;
  target <-
    (if negb found then
       main <- get (venv_main_package venv_dir) ;;
       let apps := snd main in
       if String.eqb app package_name && (length apps =? 1)%nat then
         let app := nth 0 apps "" in
         print ("NOTE: running app " ++ repr app ++ " from "
                ++ repr package_name) ;;
         if WINDOWS then
           let app_filename := app ++ ".exe" in
           logger_info ("Assuming app is " ++ repr app_filename
                        ++ " (Windows only)") ;;
           ret (app, app_filename)
         else ret (app, app)
       else
         let all_apps := map (usage_line package_or_url) apps in
         raise (PipxError
                  (APP_NOT_FOUND_ERROR_MESSAGE
                     app package_name
                     (PyStr.join (NL ++ "    ") all_apps)))
     else ret (app, app_filename)) ;;
  (if negb use_cache then FS.touch (venv_dir // VENV_EXPIRED_FILENAME)
   else ret tt) ;;
  run_app venv_dir (fst target) (snd target) app_args.

Definition run_package
  (app package_or_url : string) (app_args : list string) (python : string)
  (pip_args venv_args : list string) (pypackages verbose use_cache : bool)
  : M NoReturn :=
  on_path <- get (which app) ;;
  match on_path with
  | Some _ =>
      again <- get (which app) ;;
      logger_warning
        (pipx_wrap (hazard ++ "  " ++ app
                    ++ " is already on your PATH and installed at "
                    ++ default "None" again
                    ++ ". Downloading and running anyway."))
  | None => ret tt
  end ;;
  app_filename <-
    (if WINDOWS then
       let app_filename := app ++ ".exe" in
       logger_info ("Assuming app is " ++ repr app_filename
                    ++ " (Windows only)") ;;
       ret app_filename
     else ret app) ;;
  let pypackage_bin_path := get_pypackage_bin_path app in
  local <- FS.exists_ pypackage_bin_path ;;
  (if local then
     logger_info ("Using app in local __pypackages__ directory at '"
                  ++ path_str pypackage_bin_path ++ "'") ;;
     never <- run_pypackage_bin pypackage_bin_path app_args ;;
     match never : NoReturn with end
   else ret tt) ;;
  if pypackages then
    raise (PipxError
             ("'--pypackages' flag was passed, but '"
              ++ path_str pypackage_bin_path
              ++ "' was not found. See https://github.com/cs01/pythonloc"
              ++ " to learn how to install here, or omit the flag."))
  else
    let venv_dir :=
      _get_temporary_venv_path [package_or_url] python pip_args venv_args in
    let bin_path := venv_bin_path venv_dir // app_filename in
    _prepare_venv_cache venv_dir (Some bin_path) use_cache ;;
    found <- get (venv_has_app venv_dir app app_filename) ;;
    if found then
      logger_info ("Reusing cached venv " ++ path_str venv_dir) ;;
      run_app venv_dir app app_filename app_args
    else
      logger_info ("venv location is " ++ path_str venv_dir) ;;
      _download_and_run venv_dir package_or_url app app_filename app_args
                        python pip_args venv_args use_cache verbose.

(** *** The advisory version check *)

Definition _is_version_check_expired (package_venv : Path) : M bool :=
  let version_check_file := package_venv // "pipx_version_check" in
  created_time_sec <- FS.stat_ctime version_check_file ;;
  current_time_sec <- mktime_now ;;
  let age := (current_time_sec - created_time_sec)%Z in
  let expiration_threshold_sec := sec (60 * 60 * 24) in
  ret (age >? expiration_threshold_sec)%Z.

(** [seq[-1]] *)
Definition last_item (xs : list string) : M string :=
  match List.rev xs with
  | x :: _ => ret x
  | [] => raise (IndexError "list index out of range")
  end.

(** Every path through the function that does not raise ends without a
    [return] of the version it read, or with [return None]: the caller
    receives [None]. *)
Definition _get_latest_version (package_name : string) : M (option string) :=
  let pypi_url := "https://pypi.org/project/" ++ package_name ++ "/" in
  emit (HttpGet pypi_url) ;;
  match requests_get pypi_url with
  | inl e =>
      print ("Error during request: " ++ e) ;;
      ret None
  | inr html_content =>
      (if PyStr.nonempty html_content then
         match select_one_text html_content ".package-header__name" with
         | Some text =>
             let version_text := PyStr.strip text in
             latest_version <- last_item (PyStr.split version_text) ;;
             print ("The latest version of " ++ package_name ++ " is: "
                    ++ latest_version)
         | None =>
             print ("Unable to find version information on the PyPI page for "
                    ++ package_name ++ ".")
         end
       else
         print ("Unable to retrieve HTML content for " ++ package_name ++ ".")) ;;
      ret None
  end.

(** [version.parse(v)] on a value that is [None] or a string. *)
Definition version_parse (v : option string) : M Version :=
  match v with
  | None => raise (TypeError "expected string or bytes-like object")
  | Some text =>
      match version_parse_str text with
      | Some parsed => ret parsed
      | None => raise (InvalidVersion text)
      end
  end.

(** The directory name is the literal ["{app}"]: the string in the
    source is not an f-string. *)
Definition check_version (app : string) : M unit :=
  let package_venv := PIPX_LOCAL_VENVS // "{app}" in
  present <- FS.exists_ (package_venv // "pipx_version_check") ;;
  due <- (if present then ret true
          else _is_version_check_expired package_venv) ;;
  if due then
    FS.open_w (package_venv // "pipx_version_check") ;;
    latest_version <- _get_latest_version app ;;
    installed <- get (venv_package_version package_venv app) ;;
    current_version <- match installed with
                       | Some v => ret v
                       | None => raise (KeyError app)
                       end ;;
    latest <- version_parse latest_version ;;
    current <- version_parse (Some current_version) ;;
    if version_gt latest current then
      emit (SubprocessRun ["pipx"; "upgrade"; app])
    else ret tt
  else ret tt.

(** *** The run resolver *)

Definition _http_get_request (url : string) : M string :=
  emit (UrlOpen url) ;;
  match urlopen_read url with
  | inr text => ret text
  | inl e =>
      logger_debug "Uncaught Exception:" ;;
      raise (PipxError e)
  end.

Definition maybe_script_content (app : string) (is_path : bool)
  : M (option string) :=
  let app_path := Path_of_str app in
  present <- FS.exists_ app_path ;;
  if present then
    text <- FS.read_text app_path ;; ret (Some text)
  else if is_path then
    raise (PipxError ("The specified path " ++ app ++ " does not exist"))
  else if PyStr.nonempty (urlparse_scheme app) then
    if negb (PyStr.endswith app ".py") then
      raise (PipxError
               ("pipx will only execute apps from the internet directly if"
                ++ " they end with '.py'. To run from an SVN, try pipx"
                ++ " --spec URL BINARY"))
    else
      logger_info "Detected url. Downloading and executing as a Python file." ;;
      text <- _http_get_request app ;; ret (Some text)
  else ret None.

Definition run
  (app : string) (spec : option string) (is_path : bool)
  (app_args : list string) (python : string)
  (pip_args venv_args : list string) (pypackages verbose use_cache : bool)
  : M NoReturn :=
  check_version app ;;
  let package_name := match Requirement app with
                      | Req name _ => name
                      | InvalidRequirement _ => app
                      end in
  content <- match spec with
             | Some _ => ret None
             | None => maybe_script_content app is_path
             end ;;
  match content with
  | Some content =>
      run_script content app_args python pip_args venv_args verbose use_cache
  | None =>
      let package_or_url := match spec with Some s => s | None => app end in
      run_package package_name package_or_url app_args python pip_args
                  venv_args pypackages verbose use_cache
  end.

End Run.

(* ===================================================================== *)
(** ** Vocabulary of the statements *)
(* ===================================================================== *)

(** [sub] occurs in [s]. *)
Definition contains (s sub : string) : Prop :=
  exists pre post, s = pre ++ sub ++ post.

(** The event is a call of the external upgrade action. *)
Definition is_upgrade (e : event) : bool :=
  match e with
  | SubprocessRun _ => true
  | _ => false
  end.

(** The event is a query of the version oracle. *)
Definition is_query (e : event) : bool :=
  match e with
  | HttpGet _ => true
  | _ => false
  end.

Section Vocabulary.

Context `{C : Collaborators}.

(** The marker file that [check_version] tests and writes. *)
Definition version_check_marker : Path :=
  PIPX_LOCAL_VENVS // "{app}" // "pipx_version_check".

(** The address that [_get_latest_version] queries. *)
Definition pypi_url (package_name : string) : string :=
  "https://pypi.org/project/" ++ package_name ++ "/".

(** The line opens a requirement block. *)
Definition is_header (line : string) : bool :=
  is_comment line && String.eqb (line_content line) "Requirements:".

(** The line is a comment with a content, which parses. *)
Definition is_requirement (line : string) : bool :=
  is_comment line && PyStr.nonempty (line_content line) &&
  match Requirement (line_content line) with
  | Req _ _ => true
  | InvalidRequirement _ => false
  end.

Definition normal_form (line : string) : string :=
  match Requirement (line_content line) with
  | Req _ normal => normal
  | InvalidRequirement _ => ""
  end.

End Vocabulary.

(* ===================================================================== *)
(** ** A reference instance of the collaborators *)
(* ===================================================================== *)

(** Stand-ins for the collaborators, on which the module can be run: a
    requirement is valid when it starts with a letter or a digit and its
    normal form drops the spaces; a package index with three packages; a
    provisioner that creates the directory of the environment, its [bin]
    directory, one file per application and a metadata file.  The version
    oracle and the installed versions are arguments. *)
Module Demo.

Definition is_alnum (c : ascii) : bool :=
  let n := N_of_ascii c in
  ((48 <=? n) && (n <=? 57) || (65 <=? n) && (n <=? 90)
   || (97 <=? n) && (n <=? 122))%N.

Fixpoint remove_spaces (s : string) : string :=
  match s with
  | EmptyString => EmptyString
  | String c r =>
      if PyStr.isspace c then remove_spaces r else String c (remove_spaces r)
  end.

Fixpoint name_of (s : string) : string :=
  match s with
  | EmptyString => EmptyString
  | String c r =>
      if is_alnum c || Ascii.eqb c "-" || Ascii.eqb c "_" || Ascii.eqb c "."
      then String c (name_of r) else EmptyString
  end.

Definition requirement (text : string) : parsed_requirement :=
  match text with
  | String c _ =>
      if is_alnum c then Req (name_of text) (remove_spaces text)
      else InvalidRequirement
             "Expected package name at the start of dependency specifier"
  | EmptyString => InvalidRequirement "Empty requirement"
  end.

Definition apps_of (package : string) : list string :=
  if String.eqb package "foo" then ["foo-cli"]
  else if String.eqb package "multi" then ["a"; "b"]
  else [package].

Definition create_venv (root : Path) : M unit :=
  FS.check_parent root ;;
  now <- get clock ;;
  set_fs (fun f => <[root // "bin" := Dir now]> (<[root := Dir now]> f)).

Definition install_package (root : Path) (package_name : string) : M unit :=
  now <- get clock ;;
  for_each (apps_of package_name) (fun a =>
    set_fs (insert (root // "bin" // a) (File now ""))) ;;
  set_fs (insert (root // "pipx_metadata.json")
                 (File now (PyStr.join "," (package_name
                                             :: apps_of package_name)))).

Definition main_package (root : Path) (w : world)
  : option string * list string :=
  match fs w !! (root // "pipx_metadata.json") with
  | Some (File _ text) =>
      match split_on "," text with
      | name :: apps => (Some name, apps)
      | [] => (None, [])
      end
  | _ => (None, [])
  end.

Definition has_app (root : Path) (filename : string) (w : world) : bool :=
  match fs w !! (root // "bin" // filename) with
  | Some (File _ _) => true
  | _ => false
  end.

Definition scheme (url : string) : string :=
  if PyStr.startswith url "https://" then "https"
  else if PyStr.startswith url "http://" then "http"
  else "".

Definition collaborators
  (oracle : string -> string + string) (installed : string -> option string)
  : Collaborators := {|
  WINDOWS := false;
  TEMP_VENV_EXPIRATION_THRESHOLD_DAYS := 14;
  PIPX_VENV_CACHEDIR := ["cache"];
  PIPX_LOCAL_VENVS := ["venvs"];
  hazard := "!";
  pipx_wrap := fun text => text;
  get_pypackage_bin_path := fun app => ["__pypackages__"; "bin"; app];
  Requirement := requirement;
  Version := string;
  version_parse_str := fun text => Some text;
  version_gt := fun a b => negb (String.leb a b);
  which := fun _ _ => None;
  urlparse_scheme := scheme;
  urlopen_read := fun _ => inl "unreachable";
  requests_get := oracle;
  select_one_text := fun html _ => Some html;
  package_name_from_spec := fun package_or_url _ _ _ => ret package_or_url;
  venv_bin_path := fun root => root // "bin";
  venv_python_path := fun root => root // "bin" // "python";
  venv_create_venv := fun root _ _ _ _ => create_venv root;
  venv_install_package := fun root _ _ name _ _ => install_package root name;
  venv_install_unmanaged_packages := fun _ _ _ _ _ => ret tt;
  venv_main_package := main_package;
  venv_has_app := fun root _ filename => has_app root filename;
  venv_package_version := fun _ app _ => installed app
|}.

Definition unreachable : string -> string + string :=
  fun _ => inl "connection refused".

Definition page (text : string) : string -> string + string :=
  fun _ => inr text.

(** An empty cache, and the directory of persistent environments. *)
Definition empty_world (now : Z) : world :=
  World (<[ ["venvs"] := Dir 0 ]> (<[ ["cache"] := Dir 0 ]> ∅)) now [].

(** The same with the marker file of the version check. *)
Definition marker_world (created now : Z) : world :=
  World (<[ ["venvs"; "{app}"; "pipx_version_check"] := File created "" ]>
           (<[ ["venvs"; "{app}"] := Dir 0 ]> (fs (empty_world now))))
        now [].

(** The same with one entry in the cache. *)
Definition entry : Path := ["cache"; "0123456789abcde"].
Definition entry_world (created now : Z) : world :=
  World (<[ entry := Dir created ]> (fs (empty_world now))) now [].

(** The oracle is unreachable, every application is installed in
    version 1.0. *)
Definition offline : Collaborators :=
  collaborators unreachable (fun _ => Some "1.0").

(** The oracle answers with the page of version 2.0. *)
Definition online : Collaborators :=
  collaborators (page "black 2.0") (fun _ => Some "1.0").

Definition day : Z := 24 * 60 * 60 * 1000000.

(** The world once the environment [entry] is created, and once a
    package is installed in it. *)
Definition built (w : world) : world := snd (create_venv entry w).
Definition installed (package : string) (w : world) : world :=
  snd (install_package entry package w).

End Demo.

(** A script with a requirement header. *)
Definition script_with_header : string :=
  "# Requirements:" ++ NL ++ "# requests >= 2" ++ NL ++ "print(1)".

(** A script whose requirement block is empty. *)
Definition empty_block : string :=
  "# Requirements:" ++ NL ++ "#" ++ NL ++ "print(1)".

(** A script whose second requirement does not parse. *)
Definition malformed : string :=
  "# Requirements:" ++ NL ++ "# requests >= 2" ++ NL ++ "#   ==bad  "
  ++ NL ++ "# six".

(** The step only returns or raises. *)
Definition no_exec {A} (m : M A) : Prop :=
  forall w argv w', m w <> (Replaced argv, w').

Section CacheVocabulary.

Context `{C : Collaborators}.

(** What [_is_temporary_venv_expired] answers for an entry with this
    node. *)
Definition expired_now (w : world) (venv_dir : Path) (n : node) : bool :=
  (sec (clock w / 1000000) - node_ctime n
   >? sec (60 * 60 * 24 * TEMP_VENV_EXPIRATION_THRESHOLD_DAYS))%Z
  || bool_decide (is_Some (fs w !! (venv_dir // VENV_EXPIRED_FILENAME))).

(** The entry is a directory that the sweep removes. *)
Definition doomed (w : world) (c : Path) : bool :=
  match fs w !! c with
  | Some (Dir t) => expired_now w c (Dir t)
  | _ => false
  end.

(** The body of the loop of [_remove_all_expired_venvs]. *)
Definition sweep_entry (venv_dir : Path) : M unit :=
  expired <- _is_temporary_venv_expired venv_dir ;;
  if expired then
    logger_info ("Removing expired venv " ++ path_str venv_dir) ;;
    rmdir venv_dir
  else ret tt.

(** The entries directly inside the cache directory, as [iterdir] lists
    them. *)
Definition cache_entries (w : world) : list Path :=
  List.filter (fun p => bool_decide (FS.is_child PIPX_VENV_CACHEDIR p))
              (map fst (map_to_list (fs w))).

End CacheVocabulary.

(** All the characters of the string are whitespace. *)
Definition blank (s : string) : Prop := PyStr.lstrip s = "".

(** The two lines are the same line, or the same comment up to the
    whitespace after the marker and at the end. *)
Definition respaced (line line' : string) : Prop :=
  line = line'
  \/ exists a b a' b' body,
      blank a /\ blank b /\ blank a' /\ blank b'
      /\ line = "#" ++ a ++ body ++ b /\ line' = "#" ++ a' ++ body ++ b'.

(** The character is a lowercase hexadecimal digit. *)
Definition is_hex (c : ascii) : bool :=
  let n := N_of_ascii c in
  ((48 <=? n) && (n <=? 57) || (97 <=? n) && (n <=? 102))%N.

Fixpoint all_chars (P : ascii -> bool) (s : string) : bool :=
  match s with
  | EmptyString => true
  | String c r => P c && all_chars P r
  end.

(** A cache with five entries at day 15: a live one, one older than the
    threshold, one with the expiration marker, the environment of the
    script [script_with_header] and the environment of the package
    [cowsay], both one day old. *)
Module DemoCache.

Definition now : Z := 15 * Demo.day.
Definition yesterday : Z := 14 * Demo.day.

Definition live : Path := ["cache"; "live"].
Definition old : Path := ["cache"; "old"].
Definition marked : Path := ["cache"; "marked"].
Definition script_env : Path :=
  @_get_temporary_venv_path Demo.offline ["requests>=2"] "python3" [] [].
Definition cowsay_env : Path :=
  @_get_temporary_venv_path Demo.offline ["cowsay"] "python3" [] [].

Definition files : gmap Path node :=
  list_to_map
    [ (["cache"], Dir 0); (["venvs"], Dir 0);
      (["script.py"], File 0 script_with_header);
      (["__pypackages__"; "bin"; "tool"], File 0 "");
      (live, Dir yesterday); (live // "bin", Dir yesterday);
      (live // "bin" // "python", File yesterday "");
      (old, Dir 0); (old // "bin", Dir 0); (old // "bin" // "python", File 0 "");
      (marked, Dir now); (marked // VENV_EXPIRED_FILENAME, File now "");
      (script_env, Dir yesterday); (script_env // "bin", Dir yesterday);
      (script_env // "bin" // "python", File yesterday "");
      (cowsay_env, Dir yesterday); (cowsay_env // "bin", Dir yesterday);
      (cowsay_env // "bin" // "cowsay", File yesterday "") ].

Definition cache : world := World files now [].

(** The same machine without its cache directory. *)
Definition no_cache : world := World (delete ["cache"] files) now [].

End DemoCache.

(* ===================================================================== *)
(** ** Facts about strings *)
(* ===================================================================== *)

Lemma append_nil_l (a : string) : "" ++ a = a.
Proof. reflexivity. Qed.

Lemma append_cons (x : ascii) (a b : string) :
  String x a ++ b = String x (a ++ b).
Proof. reflexivity. Qed.

Lemma append_assoc (a b c : string) : (a ++ b) ++ c = a ++ b ++ c.
Proof.
  induction a as [|x a IH]; [reflexivity |].
  rewrite !append_cons. now f_equal.
Qed.

Lemma append_nil_r (a : string) : a ++ "" = a.
Proof.
  induction a as [|x a IH]; [reflexivity |].
  rewrite append_cons. now f_equal.
Qed.

Create Rewrite HintDb str.
#[export] Hint Rewrite append_nil_l append_cons append_nil_r append_assoc : str.

Lemma contains_refl s : contains s s.
Proof. exists "", "". now autorewrite with str. Qed.

Lemma contains_app_l s t sub : contains s sub -> contains (s ++ t) sub.
Proof.
  intros (pre & post & ->). exists pre, (post ++ t).
  now autorewrite with str.
Qed.

Lemma contains_app_r s t sub : contains t sub -> contains (s ++ t) sub.
Proof.
  intros (pre & post & ->). exists (s ++ pre), post.
  now autorewrite with str.
Qed.

Lemma contains_trans s t u : contains s t -> contains t u -> contains s u.
Proof.
  intros (p1 & q1 & ->) (p2 & q2 & ->).
  apply contains_app_r, contains_app_l, contains_app_r, contains_app_l,
    contains_refl.
Qed.

Lemma contains_join sep parts x :
  In x parts -> contains (PyStr.join sep parts) x.
Proof.
  unfold PyStr.join.
  induction parts as [|y parts IH]; intros Hin; [destruct Hin |].
  destruct Hin as [-> | Hin].
  - destruct parts; cbn; [apply contains_refl |].
    apply contains_app_l, contains_refl.
  - destruct parts as [|z parts]; [destruct Hin |].
    change (String.concat sep (y :: z :: parts))
      with (y ++ sep ++ String.concat sep (z :: parts)).
    now apply contains_app_r, contains_app_r, IH.
Qed.

(** What [strip] returns is a piece of its argument. *)
Lemma lstrip_suffix s : exists pre, s = pre ++ PyStr.lstrip s.
Proof.
  induction s as [|c s [pre IH]]; cbn.
  - now exists "".
  - destruct (PyStr.isspace c).
    + exists (String c pre). rewrite append_cons. now f_equal.
    + now exists "".
Qed.

Lemma rstrip_prefix s : exists post, s = PyStr.rstrip s ++ post.
Proof.
  induction s as [|c s [post IH]]; cbn.
  - now exists "".
  - destruct (PyStr.rstrip s) eqn:E.
    + destruct (PyStr.isspace c).
      * exists (String c s). reflexivity.
      * exists post. rewrite append_cons. now f_equal.
    + exists post. rewrite append_cons. now f_equal.
Qed.

Lemma strip_contains s : contains s (PyStr.strip s).
Proof.
  unfold PyStr.strip.
  destruct (lstrip_suffix s) as [pre Hpre].
  destruct (rstrip_prefix (PyStr.lstrip s)) as [post Hpost].
  exists pre, post. now rewrite <- Hpost.
Qed.

Lemma nonempty_true s : PyStr.nonempty s = true <-> s <> "".
Proof. destruct s; simpl; split; congruence. Qed.

(* ===================================================================== *)
(** ** Requirement extraction *)
(* ===================================================================== *)

Section Extraction.

Context `{C : Collaborators}.

Lemma is_comment_spec line :
  is_comment line = true <-> exists r, line = String "#" r.
Proof.
  unfold is_comment. destruct line as [|c r].
  - split; [discriminate | intros [? ?]; discriminate].
  - change (PyStr.startswith (String c r) "#")
      with (Ascii.eqb "#" c && true).
    rewrite andb_true_r.
    destruct (Ascii.eqb_spec "#"%char c) as [<- | Hne].
    + split; eauto.
    + split; [discriminate | intros [r' Hr]; congruence].
Qed.

Lemma find_header_cons line lines :
  find_header (line :: lines) =
  if is_header line then Some lines else find_header lines.
Proof.
  unfold is_header. simpl.
  destruct (is_comment line); simpl; [|reflexivity].
  now destruct (String.eqb _ _).
Qed.

Lemma find_header_skip pre lines :
  Forall (fun l => is_header l = false) pre ->
  find_header (pre ++ lines) = find_header lines.
Proof.
  induction 1 as [|l pre Hl _ IH]; [reflexivity |].
  change ((l :: pre) ++ lines)%list with (l :: (pre ++ lines)%list).
  now rewrite find_header_cons, Hl.
Qed.

Lemma find_header_None lines :
  find_header lines = None <-> Forall (fun l => is_header l = false) lines.
Proof.
  induction lines as [|l lines IH].
  - split; [constructor | reflexivity].
  - rewrite find_header_cons. destruct (is_header l) eqn:E.
    + split; [discriminate | intros H; inversion H; congruence].
    + rewrite IH. split; [now constructor | intros H; now inversion H].
Qed.

Lemma collect_stop line lines acc :
  is_comment line && PyStr.nonempty (line_content line) = false ->
  collect (line :: lines) acc = inr acc.
Proof.
  simpl. destruct (is_comment line); simpl; [|reflexivity].
  now intros ->.
Qed.

Lemma collect_requirements good lines acc :
  Forall (fun l => is_requirement l = true) good ->
  collect (good ++ lines) acc = collect lines (acc ++ map normal_form good).
Proof.
  intros H. revert acc.
  induction H as [|l good Hl _ IH]; intros acc.
  - simpl. now rewrite app_nil_r.
  - change ((l :: good) ++ lines)%list with (l :: (good ++ lines)%list).
    unfold is_requirement in Hl. unfold normal_form at 1.
    simpl.
    destruct (is_comment l); [|discriminate].
    destruct (PyStr.nonempty (line_content l)); [|discriminate].
    simpl in *.
    destruct (Requirement (line_content l)); [|discriminate].
    rewrite IH. now rewrite <- app_assoc.
Qed.

Lemma collect_invalid bad lines acc complaint :
  is_comment bad = true ->
  line_content bad <> "" ->
  Requirement (line_content bad) = InvalidRequirement complaint ->
  collect (bad :: lines) acc =
  inl (PipxError ("Invalid requirement " ++ line_content bad ++ ": "
                  ++ complaint)).
Proof.
  intros Hc Hne Hreq. simpl. rewrite Hc. simpl.
  apply nonempty_true in Hne. rewrite Hne. simpl. now rewrite Hreq.
Qed.

Lemma extraction_of_lines content pre header lines :
  PyStr.splitlines content = (pre ++ header :: lines)%list ->
  Forall (fun l => is_header l = false) pre ->
  is_header header = true ->
  _get_requirements_from_script content =
  match collect lines [] with
  | inl e => inl e
  | inr requirements => inr (Some requirements)
  end.
Proof.
  intros Hlines Hpre Hh. unfold _get_requirements_from_script.
  now rewrite Hlines, find_header_skip, find_header_cons, Hh.
Qed.

Lemma extraction_None content :
  _get_requirements_from_script content = inr None <->
  Forall (fun l => is_header l = false) (PyStr.splitlines content).
Proof.
  rewrite <- find_header_None. unfold _get_requirements_from_script.
  destruct (find_header _) as [lines|]; [|tauto].
  split; [|discriminate].
  destruct (collect lines []); discriminate.
Qed.

(** The direct run: the ambient interpreter, and nothing else happens. *)
Lemma run_script_direct content app_args python pip_args venv_args
      verbose use_cache w :
  _get_requirements_from_script content = inr None ->
  run_script content app_args python pip_args venv_args verbose use_cache w
  = (Replaced ([python; "-c"; content] ++ app_args)%list, w).
Proof. intros H. unfold run_script. now rewrite H. Qed.

(** The run through the cache: the fingerprint of the requirements, the
    sweep, reuse or build, and the interpreter of the environment. *)
Lemma run_script_cached content app_args python pip_args venv_args
      verbose use_cache requirements :
  _get_requirements_from_script content = inr (Some requirements) ->
  run_script content app_args python pip_args venv_args verbose use_cache
  = (let venv_dir :=
       _get_temporary_venv_path requirements python pip_args venv_args in
     _prepare_venv_cache venv_dir None use_cache ;;
     present <- FS.exists_ venv_dir ;;
     (if present then
        logger_info ("Reusing cached venv " ++ path_str venv_dir)
      else
        venv_create_venv venv_dir python verbose venv_args pip_args ;;
        venv_install_unmanaged_packages venv_dir python verbose
                                        requirements pip_args) ;;
     exec_app ([path_str (venv_python_path venv_dir); "-c"; content]
               ++ app_args)%list).
Proof. intros H. unfold run_script. now rewrite H. Qed.

End Extraction.

Section ExtractionClaims.

Context `{C : Collaborators}.

Lemma no_header_Forall lines :
  Forall (fun l => is_header l = false) lines <->
  ~ exists line, In line lines /\ is_comment line = true
                 /\ line_content line = "Requirements:".
Proof.
  rewrite List.Forall_forall. unfold is_header. split.
  - intros H (line & Hin & Hc & Hl). specialize (H line Hin).
    rewrite Hc, Hl in H. discriminate.
  - intros H line Hin.
    destruct (is_comment line) eqn:Hc; [|reflexivity].
    destruct (String.eqb_spec (line_content line) "Requirements:"); [|reflexivity].
    exfalso. apply H. eauto.
Qed.

(** C6. Extraction returns [None] exactly when no line of the script is
    a comment line (a line starting with [#]) whose content, stripped
    of the marker and of surrounding whitespace, is [Requirements:].
    A header line directly followed by the end of the script, by a line
    that is no comment or by a blank comment line gives the empty list,
    not [None].  [run_script] runs the script directly with the ambient
    interpreter, touching nothing, when the result is [None]; for any
    list, the empty one included, it goes through the cache: fingerprint,
    sweep, reuse or build, and the interpreter of the environment. *)
Theorem C6_none_iff_no_header_and_routing
  (content : string) (app_args : list string) (python : string)
  (pip_args venv_args : list string) (verbose use_cache : bool) :
  (_get_requirements_from_script content = inr None <->
   ~ exists line, In line (PyStr.splitlines content)
                  /\ is_comment line = true
                  /\ line_content line = "Requirements:")
  /\ (forall pre header rest,
        PyStr.splitlines content = (pre ++ header :: rest)%list ->
        Forall (fun l => is_header l = false) pre ->
        is_header header = true ->
        match rest with
        | [] => True
        | next :: _ => is_comment next = false \/ line_content next = ""
        end ->
        _get_requirements_from_script content = inr (Some []))
  /\ (_get_requirements_from_script content = inr None ->
      forall w,
        run_script content app_args python pip_args venv_args verbose
                   use_cache w
        = (Replaced ([python; "-c"; content] ++ app_args)%list, w))
  /\ (forall requirements,
        _get_requirements_from_script content = inr (Some requirements) ->
        run_script content app_args python pip_args venv_args verbose
                   use_cache
        = (let venv_dir :=
             _get_temporary_venv_path requirements python pip_args
                                      venv_args in
           _prepare_venv_cache venv_dir None use_cache ;;
           present <- FS.exists_ venv_dir ;;
           (if present then
              logger_info ("Reusing cached venv " ++ path_str venv_dir)
            else
              venv_create_venv venv_dir python verbose venv_args pip_args ;;
              venv_install_unmanaged_packages venv_dir python verbose
                                              requirements pip_args) ;;
           exec_app ([path_str (venv_python_path venv_dir); "-c"; content]
                     ++ app_args)%list)).
Proof.
  split; [|split; [|split]].
  - rewrite extraction_None. apply no_header_Forall.
  - intros pre header rest Hlines Hpre Hh Hrest.
    rewrite (extraction_of_lines _ _ _ _ Hlines Hpre Hh).
    destruct rest as [|next rest]; [reflexivity |].
    rewrite collect_stop; [reflexivity |].
    destruct Hrest as [-> | ->]; [reflexivity | apply andb_false_r].
  - intros H w. now apply run_script_direct.
  - intros requirements H. now apply run_script_cached.
Qed.

(** C7. When a line of the requirement block does not parse, extraction
    raises [PipxError] with the message [Invalid requirement <text>:
    <complaint>], where the text is the line as written, without the
    comment marker and the surrounding whitespace, and the complaint is
    the parser's.  What follows the line has no influence on the result.
    The lines of the block before it, which parse, raise nothing: the
    same script cut before the malformed line gives their normal forms. *)
Theorem C7_first_malformed_requirement_is_fatal
  (content : string) (pre good rest : list string) (header bad : string)
  (complaint : string) :
  PyStr.splitlines content = (pre ++ header :: good ++ bad :: rest)%list ->
  Forall (fun l => is_header l = false) pre ->
  is_header header = true ->
  Forall (fun l => is_requirement l = true) good ->
  is_comment bad = true ->
  line_content bad <> "" ->
  Requirement (line_content bad) = InvalidRequirement complaint ->
  let msg := "Invalid requirement " ++ line_content bad ++ ": " ++ complaint in
  _get_requirements_from_script content = inl (PipxError msg)
  /\ contains msg (line_content bad)
  /\ contains bad (line_content bad)
  /\ contains msg complaint
  /\ (forall content' rest',
        PyStr.splitlines content'
        = (pre ++ header :: good ++ bad :: rest')%list ->
        _get_requirements_from_script content' = inl (PipxError msg))
  /\ (forall content',
        PyStr.splitlines content' = (pre ++ header :: good)%list ->
        _get_requirements_from_script content'
        = inr (Some (map normal_form good))).
Proof.
  intros Hlines Hpre Hh Hgood Hc Hne Hbad msg.
  assert (Hany : forall content' rest',
             PyStr.splitlines content'
             = (pre ++ header :: good ++ bad :: rest')%list ->
             _get_requirements_from_script content' = inl (PipxError msg)).
  { intros content' rest' H'.
    rewrite (extraction_of_lines _ _ _ _ H' Hpre Hh).
    rewrite (collect_requirements _ _ _ Hgood).
    now rewrite (collect_invalid _ _ _ _ Hc Hne Hbad). }
  repeat split.
  - now apply (Hany content rest).
  - apply contains_app_r, contains_app_l, contains_refl.
  - apply is_comment_spec in Hc as [r ->]. unfold line_content.
    change (PyStr.tail (String "#" r)) with r.
    destruct (strip_contains r) as (p & q & Hr).
    exists (String "#" p), q. rewrite append_cons. now f_equal.
  - apply contains_app_r, contains_app_r, contains_app_r, contains_refl.
  - exact Hany.
  - intros content' H'.
    rewrite (extraction_of_lines _ _ _ _ H' Hpre Hh).
    rewrite <- (app_nil_r good) at 1.
    now rewrite (collect_requirements _ _ _ Hgood).
Qed.

(** C10. A line is a comment only when its first character is [#].  A
    line that starts with whitespace is no comment, whatever follows:
    the search for the header passes over it, so an indented
    [   # Requirements:] opens no block, and inside a block it ends the
    block without adding a requirement, like an indented [   # pkg]. *)
Theorem C10_comment_needs_leading_hash
  (indented : string) (lines acc : list string) :
  (exists c r, indented = String c r /\ PyStr.isspace c = true) ->
  (forall line, is_comment line = true <-> exists r, line = String "#" r)
  /\ is_comment indented = false
  /\ find_header (indented :: lines) = find_header lines
  /\ collect (indented :: lines) acc = inr acc
  /\ _get_requirements_from_script "   # Requirements:" = inr None
  /\ _get_requirements_from_script
       ("# Requirements:" ++ NL ++ "   # pkg" ++ NL ++ "# other")
     = inr (Some [])
  /\ (forall content pre header good rest,
        PyStr.splitlines content
        = (pre ++ header :: good ++ indented :: rest)%list ->
        Forall (fun l => is_header l = false) pre ->
        is_header header = true ->
        Forall (fun l => is_requirement l = true) good ->
        _get_requirements_from_script content
        = inr (Some (map normal_form good))).
Proof.
  intros (c & r & -> & Hsp).
  assert (Hnc : is_comment (String c r) = false).
  { destruct (is_comment (String c r)) eqn:E; [|reflexivity].
    apply is_comment_spec in E as [r' [= -> _]]. discriminate. }
  split; [apply is_comment_spec |].
  split; [exact Hnc |].
  split; [rewrite find_header_cons; unfold is_header; now rewrite Hnc |].
  split; [apply collect_stop; now rewrite Hnc |].
  split; [reflexivity |].
  split; [reflexivity |].
  intros content pre header good rest Hlines Hpre Hh Hgood.
  rewrite (extraction_of_lines _ _ _ _ Hlines Hpre Hh).
  rewrite (collect_requirements _ _ _ Hgood).
  rewrite collect_stop; [reflexivity | now rewrite Hnc].
Qed.

End ExtractionClaims.

(** The claims on extraction, at concrete scripts. *)
Module ExtractionWitnesses.

Lemma C6_witness :
  @_get_requirements_from_script Demo.offline empty_block = inr (Some [])
  /\ @_get_requirements_from_script Demo.offline "print(1)" = inr None.
Proof.
  split.
  - apply (proj1 (proj2 (@C6_none_iff_no_header_and_routing
                           Demo.offline empty_block [] "python3" [] [] false true))
             [] "# Requirements:" ["#"; "print(1)"]).
    + reflexivity.
    + constructor.
    + reflexivity.
    + right. reflexivity.
  - apply (proj1 (@C6_none_iff_no_header_and_routing
                    Demo.offline "print(1)" [] "python3" [] [] false true)).
    intros (line & [<- | []] & Hc & _). discriminate Hc.
Defined.

Lemma C7_witness :
  @_get_requirements_from_script Demo.offline malformed
  = inl (PipxError
           ("Invalid requirement ==bad: "
            ++ "Expected package name at the start of dependency specifier")).
Proof.
  apply (@C7_first_malformed_requirement_is_fatal
           Demo.offline malformed [] ["# requests >= 2"] ["# six"]
           "# Requirements:" "#   ==bad  "
           "Expected package name at the start of dependency specifier").
  - reflexivity.
  - constructor.
  - reflexivity.
  - repeat constructor.
  - reflexivity.
  - discriminate.
  - reflexivity.
Defined.

Lemma C10_witness :
  @_get_requirements_from_script Demo.offline
    ("# Requirements:" ++ NL ++ "# six" ++ NL ++ "   # requests" ++ NL
     ++ "# attrs")
  = inr (Some ["six"]).
Proof.
  apply (proj2 (proj2 (proj2 (proj2 (proj2 (proj2
           (@C10_comment_needs_leading_hash Demo.offline "   # requests" [] []
              (ex_intro _ " "%char
                 (ex_intro _ "  # requests" (conj eq_refl eq_refl)))))))))
           _ [] "# Requirements:" ["# six"] ["# attrs"]).
  - reflexivity.
  - constructor.
  - reflexivity.
  - repeat constructor.
Defined.

End ExtractionWitnesses.

(* ===================================================================== *)
(** ** The fingerprint *)
(* ===================================================================== *)

Lemma round_length st kw : length (Hashlib.round st kw) = length st.
Proof.
  unfold Hashlib.round.
  do 9 (destruct st as [|? st]; [reflexivity |]). reflexivity.
Qed.

Lemma rounds_length kws st :
  length (fold_left Hashlib.round kws st) = length st.
Proof.
  revert st. induction kws as [|kw kws IH]; intros st; [reflexivity |].
  cbn [fold_left]. now rewrite IH, round_length.
Qed.

Lemma compress_length h block :
  length (Hashlib.compress h block) = length h.
Proof.
  unfold Hashlib.compress.
  rewrite length_map, length_combine, rounds_length. lia.
Qed.

Lemma blocks_length n h bytes :
  length (Hashlib.blocks n h bytes) = length h.
Proof.
  revert h bytes. induction n as [|n IH]; intros h bytes; [reflexivity |].
  cbn [Hashlib.blocks]. now rewrite IH, compress_length.
Qed.

Lemma string_length_app (a b : string) :
  String.length (a ++ b) = (String.length a + String.length b)%nat.
Proof.
  induction a as [|x a IH]; [reflexivity |].
  rewrite append_cons. cbn [String.length]. now rewrite IH.
Qed.

Lemma hex_words_length ws :
  String.length (String.concat "" (map Hashlib.hex_word ws))
  = (8 * length ws)%nat.
Proof.
  induction ws as [|x ws IH]; [reflexivity |].
  assert (Hx : String.length (Hashlib.hex_word x) = 8%nat) by reflexivity.
  destruct ws as [|y ws].
  - cbn [map String.concat length]. rewrite Hx. reflexivity.
  - change (String.concat "" (map Hashlib.hex_word (x :: y :: ws)))
      with (Hashlib.hex_word x ++ "" ++
            String.concat "" (map Hashlib.hex_word (y :: ws))).
    rewrite append_nil_l, string_length_app, Hx, IH.
    cbn [length]. lia.
Qed.

(** A digest is 64 characters long. *)
Lemma hexdigest_length m : String.length (Hashlib.hexdigest m) = 64%nat.
Proof.
  unfold Hashlib.hexdigest, Hashlib.digest_words.
  rewrite hex_words_length, blocks_length. reflexivity.
Qed.

Lemma slice_to_prefix n s : exists rest, s = PyStr.slice_to n s ++ rest.
Proof.
  unfold PyStr.slice_to. revert s.
  induction n as [|n IH]; intros s.
  - exists s. destruct s; reflexivity.
  - destruct s as [|c s]; [now exists "" |].
    destruct (IH s) as [rest Hrest]. exists rest.
    cbn [substring]. rewrite append_cons. now f_equal.
Qed.

Lemma slice_to_length n s :
  (n <= String.length s)%nat -> String.length (PyStr.slice_to n s) = n.
Proof.
  unfold PyStr.slice_to. revert s.
  induction n as [|n IH]; intros s Hn.
  - destruct s; reflexivity.
  - destruct s as [|c s]; cbn [String.length] in *; [lia |].
    cbn [substring String.length]. rewrite IH; lia.
Qed.

Lemma encode_app a b :
  Hashlib.encode (a ++ b) = (Hashlib.encode a ++ Hashlib.encode b)%list.
Proof.
  induction a as [|x a IH]; [reflexivity |].
  rewrite append_cons. cbn [Hashlib.encode]. now rewrite IH, app_assoc.
Qed.

Section Fingerprint.

Context `{C : Collaborators}.

(** What the hash object has been fed when the digest is taken. *)
Lemma fingerprint_fed requirements python pip_args venv_args :
  _get_temporary_venv_path requirements python pip_args venv_args
  = PIPX_VENV_CACHEDIR //
    PyStr.slice_to 15
      (Hashlib.hexdigest
         {| Hashlib.fed :=
             (Hashlib.encode (PyStr.join "" requirements)
              ++ Hashlib.encode python
              ++ Hashlib.encode (PyStr.join "" pip_args)
              ++ Hashlib.encode (PyStr.join "" venv_args))%list |}).
Proof.
  unfold _get_temporary_venv_path, Hashlib.update, Hashlib.new.
  cbn [Hashlib.fed]. now rewrite !app_nil_l, <- !app_assoc.
Qed.

(** C8. The directory of an environment is the cache directory followed
    by a name which is the first 15 characters of the SHA-256 digest, in
    hexadecimal, of the bytes of: the requirement strings joined without
    separator, then the interpreter, then the provisioning arguments
    joined without separator, then the environment arguments joined
    without separator.  Hence two requirement lists with the same
    concatenation, such as [ab] and [a; b], give the same directory for
    the same interpreter and arguments. *)
Theorem C8_fingerprint_of_concatenation
  (requirements others : list string) (python : string)
  (pip_args venv_args : list string) :
  (exists digest name rest,
      digest = Hashlib.hexdigest
                 {| Hashlib.fed :=
                     (Hashlib.encode (PyStr.join "" requirements)
                      ++ Hashlib.encode python
                      ++ Hashlib.encode (PyStr.join "" pip_args)
                      ++ Hashlib.encode (PyStr.join "" venv_args))%list |}
      /\ digest = name ++ rest
      /\ String.length name = 15%nat
      /\ _get_temporary_venv_path requirements python pip_args venv_args
         = PIPX_VENV_CACHEDIR // name)
  /\ (PyStr.join "" requirements = PyStr.join "" others ->
      _get_temporary_venv_path requirements python pip_args venv_args
      = _get_temporary_venv_path others python pip_args venv_args)
  /\ _get_temporary_venv_path ["ab"] python pip_args venv_args
     = _get_temporary_venv_path ["a"; "b"] python pip_args venv_args.
Proof.
  split; [|split].
  - eexists _, _.
    destruct (slice_to_prefix 15
                (Hashlib.hexdigest
                   {| Hashlib.fed :=
                       (Hashlib.encode (PyStr.join "" requirements)
                        ++ Hashlib.encode python
                        ++ Hashlib.encode (PyStr.join "" pip_args)
                        ++ Hashlib.encode (PyStr.join "" venv_args))%list |}))
      as [rest Hrest].
    exists rest. split; [reflexivity |]. split; [exact Hrest |].
    split; [|apply fingerprint_fed].
    apply slice_to_length. rewrite hexdigest_length. lia.
  - intros H. rewrite !fingerprint_fed. now rewrite H.
  - rewrite !fingerprint_fed. reflexivity.
Qed.

End Fingerprint.

Module FingerprintWitnesses.

Lemma C8_witness :
  @_get_temporary_venv_path Demo.offline
    ["requests"; ">=2"] "python3" [] []
  = @_get_temporary_venv_path Demo.offline
      ["requests>=2"] "python3" [] [].
Proof.
  apply (proj1 (proj2 (@C8_fingerprint_of_concatenation
                         Demo.offline ["requests"; ">=2"]
                         ["requests>=2"] "python3" [] []))).
  reflexivity.
Defined.

End FingerprintWitnesses.

(* ===================================================================== *)
(** ** Running the monad *)
(* ===================================================================== *)

Lemma bind_Ret {A B} (m : M A) (k : A -> M B) w a w' :
  m w = (Ret a, w') -> bind m k w = k a w'.
Proof. intros H. unfold bind. now rewrite H. Qed.

Lemma bind_Raise {A B} (m : M A) (k : A -> M B) w e w' :
  m w = (Raise e, w') -> bind m k w = (Raise e, w').
Proof. intros H. unfold bind. now rewrite H. Qed.

Lemma bind_Replaced {A B} (m : M A) (k : A -> M B) w argv w' :
  m w = (Replaced argv, w') -> bind m k w = (Replaced argv, w').
Proof. intros H. unfold bind. now rewrite H. Qed.

Lemma bind_get {A B} (f : world -> A) (k : A -> M B) w :
  bind (get f) k w = k (f w) w.
Proof. reflexivity. Qed.

Lemma bind_ret {A B} (a : A) (k : A -> M B) w : bind (ret a) k w = k a w.
Proof. reflexivity. Qed.

Lemma bind_emit {B} (e : event) (k : unit -> M B) w :
  bind (emit e) k w = k tt (World (fs w) (clock w) (trace w ++ [e])).
Proof. reflexivity. Qed.

Lemma bind_set_fs {B} f (k : unit -> M B) w :
  bind (set_fs f) k w = k tt (World (f (fs w)) (clock w) (trace w)).
Proof. reflexivity. Qed.

Lemma bind_assoc {A B D} (m : M A) (k : A -> M B) (h : B -> M D) w :
  bind (bind m k) h w = bind m (fun a => bind (k a) h) w.
Proof. unfold bind. destruct (m w) as [[a | e | argv] w']; reflexivity. Qed.

Lemma parent_pjoin d name : FS.parent (d // name) = d.
Proof. apply removelast_last. Qed.

(** A file can always be touched inside a directory that exists. *)
Lemma touch_in_dir d name t w :
  fs w !! d = Some (Dir t) ->
  exists n,
    FS.touch (d // name) w
    = (Ret tt, World (<[d // name := n]> (fs w)) (clock w) (trace w)).
Proof.
  intros Hd. unfold FS.touch. rewrite bind_get, bind_get.
  destruct (fs w !! (d // name)) as [[t' text | t'] |] eqn:E.
  - now eexists.
  - now eexists.
  - unfold FS.check_parent. rewrite bind_assoc, bind_get, parent_pjoin, Hd.
    now eexists.
Qed.

Lemma touch_creates d name t w :
  fs w !! d = Some (Dir t) ->
  exists w',
    FS.touch (d // name) w = (Ret tt, w')
    /\ is_Some (fs w' !! (d // name))
    /\ fs w' !! d = Some (Dir t)
    /\ trace w' = trace w.
Proof.
  intros Hd. destruct (touch_in_dir d name t w Hd) as [n Hn].
  eexists. split; [exact Hn |]. cbn [fs trace].
  split; [rewrite lookup_insert_eq; eauto |].
  split; [|reflexivity].
  rewrite lookup_insert_ne; [exact Hd |].
  unfold pjoin. intros H. apply (f_equal length) in H.
  rewrite length_app in H. cbn in H. lia.
Qed.

(* ===================================================================== *)
(** ** Package runs *)
(* ===================================================================== *)

Section PackageRun.

Context `{C : Collaborators}.

Lemma usage_lines_listed package_or_url apps a :
  In a apps ->
  contains (PyStr.join (NL ++ "    ") (map (usage_line package_or_url) apps))
           (usage_line package_or_url a).
Proof. intros H. apply contains_join, in_map, H. Qed.

(** C5. After the package has been provisioned into the environment and
    the requested executable is not in it: when the requested name is
    the package name and the metadata declare exactly one application,
    that application is launched from the environment, under its own
    file name, and a note names the substitution; in every other case
    [PipxError] is raised, whose message names the requested application
    and has, for every declared application, a line with the application
    and an example invocation of it. *)
Theorem C5_missing_app_resolution
  (venv_dir : Path) (package_or_url app app_filename : string)
  (app_args : list string) (python : string)
  (pip_args venv_args : list string) (use_cache verbose : bool)
  (w w1 w2 w3 : world) (package_name : string) (t : Z) :
  venv_create_venv venv_dir python verbose venv_args pip_args w
  = (Ret tt, w1) ->
  match fst (venv_main_package venv_dir w1) with
  | Some package => ret package
  | None => package_name_from_spec package_or_url python pip_args verbose
  end w1 = (Ret package_name, w2) ->
  venv_install_package venv_dir python verbose package_name package_or_url
                       pip_args w2 = (Ret tt, w3) ->
  fs w3 !! venv_dir = Some (Dir t) ->
  venv_has_app venv_dir app app_filename w3 = false ->
  let apps := snd (venv_main_package venv_dir w3) in
  let outcome :=
    _download_and_run venv_dir package_or_url app app_filename app_args
                      python pip_args venv_args use_cache verbose w in
  (forall single,
      app = package_name -> apps = [single] ->
      fst outcome
      = Replaced (path_str (venv_bin_path venv_dir //
                              (if WINDOWS then single ++ ".exe" else single))
                  :: app_args)
      /\ In (Print ("NOTE: running app " ++ repr single ++ " from "
                    ++ repr package_name)) (trace (snd outcome)))
  /\ (~ (app = package_name /\ length apps = 1%nat) ->
      exists msg,
        outcome = (Raise (PipxError msg), w3)
        /\ msg = APP_NOT_FOUND_ERROR_MESSAGE
                   app package_name
                   (PyStr.join (NL ++ "    ")
                               (map (usage_line package_or_url) apps))
        /\ contains msg ("'" ++ app ++ "' executable script not found")
        /\ Forall (fun a =>
                     contains msg
                       (a ++ " - usage: 'pipx run --spec " ++ package_or_url
                          ++ " " ++ a ++ " [arguments?]'"))
                  apps).
Proof.
  intros Hcreate Hname Hinstall Hdir Hfound apps outcome.
  assert (Hrun : outcome =
    (target <-
       (main <- get (venv_main_package venv_dir) ;;
        let apps := snd main in
        if String.eqb app package_name && (length apps =? 1)%nat then
          let app := nth 0 apps "" in
          print ("NOTE: running app " ++ repr app ++ " from "
                 ++ repr package_name) ;;
          if WINDOWS then
            let app_filename := app ++ ".exe" in
            logger_info ("Assuming app is " ++ repr app_filename
                         ++ " (Windows only)") ;;
            ret (app, app_filename)
          else ret (app, app)
        else
          let all_apps := map (usage_line package_or_url) apps in
          raise (PipxError
                   (APP_NOT_FOUND_ERROR_MESSAGE
                      app package_name
                      (PyStr.join (NL ++ "    ") all_apps))) : M _) ;;
     (if negb use_cache then FS.touch (venv_dir // VENV_EXPIRED_FILENAME)
      else ret tt) ;;
     run_app venv_dir (fst target) (snd target) app_args) w3).
  { subst outcome. unfold _download_and_run.
    rewrite (bind_Ret _ _ _ _ _ Hcreate), bind_get.
    rewrite (bind_Ret _ _ _ _ _ Hname).
    rewrite (bind_Ret _ _ _ _ _ Hinstall).
    rewrite bind_get, Hfound. reflexivity. }
  rewrite Hrun. clear Hrun outcome.
  rewrite bind_assoc, bind_get. fold apps.
  split.
  - intros single -> Happs. rewrite Happs.
    rewrite String.eqb_refl. cbn [length Nat.eqb andb nth].
    unfold print, logger_info.
    rewrite bind_assoc, bind_emit.
    set (w4 := World _ _ _).
    assert (Hd4 : fs w4 !! venv_dir = Some (Dir t)) by exact Hdir.
    assert (Ht4 : In (Print ("NOTE: running app " ++ repr single ++ " from "
                             ++ repr package_name)) (trace w4)).
    { subst w4. cbn [trace]. apply in_or_app. right. now left. }
    destruct WINDOWS.
    + rewrite bind_assoc, bind_emit, bind_ret.
      set (w5 := World _ _ _).
      assert (Hd5 : fs w5 !! venv_dir = Some (Dir t)) by exact Hd4.
      assert (Ht5 : In (Print ("NOTE: running app " ++ repr single
                               ++ " from " ++ repr package_name))
                       (trace w5)).
      { subst w5. cbn [trace]. apply in_or_app. now left. }
      cbn [fst snd]. destruct use_cache; cbn [negb].
      * rewrite bind_ret. split; [reflexivity | exact Ht5].
      * destruct (touch_creates venv_dir VENV_EXPIRED_FILENAME t w5 Hd5)
          as (w6 & Htouch & _ & _ & Htr).
        rewrite (bind_Ret _ _ _ _ _ Htouch). cbn [fst snd run_app exec_app].
        split; [reflexivity | now rewrite Htr].
    + rewrite bind_ret. cbn [fst snd]. destruct use_cache; cbn [negb].
      * rewrite bind_ret. split; [reflexivity | exact Ht4].
      * destruct (touch_creates venv_dir VENV_EXPIRED_FILENAME t w4 Hd4)
          as (w6 & Htouch & _ & _ & Htr).
        rewrite (bind_Ret _ _ _ _ _ Htouch). cbn [fst snd run_app exec_app].
        split; [reflexivity | now rewrite Htr].
  - intros Hnot.
    assert (Hcond : String.eqb app package_name && (length apps =? 1)%nat
                    = false).
    { apply not_true_is_false. intros [H1 H2]%andb_true_iff.
      apply Hnot. split; [now apply String.eqb_eq | now apply Nat.eqb_eq]. }
    unfold apps in *. cbv beta zeta. rewrite Hcond.
    eexists. split; [reflexivity |].
    split; [reflexivity |].
    split.
    + unfold APP_NOT_FOUND_ERROR_MESSAGE.
      exists "", (" in package '" ++ package_name ++ "'." ++ NL
                  ++ "Available executable scripts:" ++ NL ++ "    "
                  ++ PyStr.join (NL ++ "    ")
                       (map (usage_line package_or_url) apps)).
      now autorewrite with str.
    + apply List.Forall_forall. intros a Ha.
      unfold APP_NOT_FOUND_ERROR_MESSAGE.
      do 9 apply contains_app_r.
      apply (usage_lines_listed package_or_url apps a Ha).
Qed.

End PackageRun.

(* ===================================================================== *)
(** ** The advisory version check *)
(* ===================================================================== *)

Section VersionCheck.

Context `{C : Collaborators}.

(** The query returns [None] whatever the oracle answers, or raises
    [IndexError]; it leaves the filesystem alone. *)
Lemma get_latest_version_outcome package_name w :
  exists more,
    (fst (_get_latest_version package_name w) = Ret None
     \/ exists msg,
         fst (_get_latest_version package_name w) = Raise (IndexError msg))
    /\ snd (_get_latest_version package_name w)
       = World (fs w) (clock w)
               (trace w ++ HttpGet (pypi_url package_name) :: more)
    /\ Forall (fun e => is_upgrade e = false) more.
Proof.
  unfold _get_latest_version. rewrite bind_emit.
  set (w1 := World _ _ _).
  destruct (requests_get _) as [e | html].
  { eexists [_]. unfold print. rewrite bind_emit. cbn [ret fst snd].
    split; [now left |]. split.
    - unfold w1. cbn [fs clock trace]. now rewrite <- app_assoc.
    - repeat constructor. }
  destruct (PyStr.nonempty html).
  2: { eexists [_]. unfold print. rewrite bind_emit. cbn [ret fst snd].
       split; [now left |]. split.
       - unfold w1. cbn [fs clock trace]. now rewrite <- app_assoc.
       - repeat constructor. }
  destruct (select_one_text html _) as [text |].
  2: { eexists [_]. unfold print. rewrite bind_emit. cbn [ret fst snd].
       split; [now left |]. split.
       - unfold w1. cbn [fs clock trace]. now rewrite <- app_assoc.
       - repeat constructor. }
  rewrite bind_assoc. unfold last_item.
  destruct (List.rev (PyStr.split (PyStr.strip text))) as [|v vs].
  - exists []. cbn. split; [right; eauto |]. split; [reflexivity | constructor].
  - eexists [_]. rewrite bind_ret. unfold print. rewrite bind_emit.
    cbn [ret fst snd].
    split; [now left |]. split.
    + unfold w1. cbn [fs clock trace]. now rewrite <- app_assoc.
    + repeat constructor.
Qed.

Lemma exists_Some p w n :
  fs w !! p = Some n -> bool_decide (is_Some (fs w !! p)) = true.
Proof. intros H. apply bool_decide_eq_true_2. rewrite H. eauto. Qed.

Lemma exists_None p w :
  fs w !! p = None -> bool_decide (is_Some (fs w !! p)) = false.
Proof.
  intros H. apply bool_decide_eq_false_2. rewrite H. now intros [? ?].
Qed.

(** Without the marker file the test of its age raises. *)
Lemma check_version_absent app w :
  fs w !! version_check_marker = None ->
  check_version app w = (Raise (FileNotFoundError version_check_marker), w).
Proof.
  intros H. unfold check_version, FS.exists_.
  rewrite bind_get. fold version_check_marker.
  rewrite (exists_None _ _ H).
  unfold _is_version_check_expired, FS.stat_ctime.
  fold version_check_marker.
  rewrite !bind_assoc, bind_get, H. reflexivity.
Qed.

Lemma check_version_directory app w t :
  fs w !! version_check_marker = Some (Dir t) ->
  check_version app w = (Raise (IsADirectoryError version_check_marker), w).
Proof.
  intros H. unfold check_version, FS.exists_.
  rewrite bind_get. fold version_check_marker.
  rewrite (exists_Some _ _ _ H), bind_ret.
  unfold FS.open_w. rewrite bind_assoc, bind_get, H. reflexivity.
Qed.

(** With the marker file, of any age, the file is overwritten, the
    oracle is queried, and the check ends in an exception. *)
Lemma check_version_present app w t text :
  fs w !! version_check_marker = Some (File t text) ->
  exists e more,
    check_version app w
    = (Raise e,
       World (<[version_check_marker := File (clock w) ""]> (fs w))
             (clock w)
             (trace w ++ HttpGet (pypi_url app) :: more))
    /\ Forall (fun ev => is_upgrade ev = false) more
    /\ ((exists msg, e = IndexError msg)
        \/ e = KeyError app
        \/ e = TypeError "expected string or bytes-like object").
Proof.
  intros H. unfold check_version, FS.exists_.
  rewrite bind_get. fold version_check_marker.
  rewrite (exists_Some _ _ _ H), bind_ret.
  unfold FS.open_w. rewrite !bind_assoc, bind_get, H.
  rewrite bind_assoc, bind_get, bind_set_fs.
  set (w1 := World _ _ _).
  destruct (get_latest_version_outcome app w1) as (more & Hout & Hw & Hmore).
  destruct (_get_latest_version app w1) as [o w2] eqn:E.
  cbn [fst snd] in Hout, Hw. subst w2. subst w1. cbn [fs clock trace] in *.
  destruct Hout as [-> | [msg ->]].
  - rewrite (bind_Ret _ _ _ _ _ E), bind_get.
    destruct (venv_package_version _ _ _) as [v |].
    + rewrite bind_ret. exists (TypeError "expected string or bytes-like object"), more.
      split; [reflexivity |]. split; [exact Hmore | auto].
    + exists (KeyError app), more.
      split; [reflexivity |]. split; [exact Hmore | auto].
  - rewrite (bind_Raise _ _ _ _ _ E). exists (IndexError msg), more.
    split; [reflexivity |]. split; [exact Hmore | eauto].
Qed.

(** The check never returns: whatever the world, it raises. *)
Lemma check_version_raises app w :
  exists e w', check_version app w = (Raise e, w').
Proof.
  destruct (fs w !! version_check_marker) as [[t text | t] |] eqn:H.
  - destruct (check_version_present app w t text H) as (e & more & -> & _).
    eauto.
  - rewrite (check_version_directory app w t H). eauto.
  - rewrite (check_version_absent app w H). eauto.
Qed.

(** And neither does [run]: the exception of the check is its own. *)
Lemma run_raises app spec is_path app_args python pip_args venv_args
      pypackages verbose use_cache w e w' :
  check_version app w = (Raise e, w') ->
  run app spec is_path app_args python pip_args venv_args pypackages
      verbose use_cache w = (Raise e, w').
Proof. intros H. unfold run. now rewrite (bind_Raise _ _ _ _ _ H). Qed.

(** The filesystem after the check: as before, or with the marker
    rewritten. *)
Lemma check_version_fs app w :
  fs (snd (check_version app w))
  = match fs w !! version_check_marker with
    | Some (File _ _) =>
        <[version_check_marker := File (clock w) ""]> (fs w)
    | _ => fs w
    end.
Proof.
  destruct (fs w !! version_check_marker) as [[t text | t] |] eqn:H.
  - destruct (check_version_present app w t text H) as (e & more & -> & _).
    reflexivity.
  - now rewrite (check_version_directory app w t H).
  - now rewrite (check_version_absent app w H).
Qed.

(** The events that the check adds to the trace. *)
Lemma check_version_trace app w :
  exists added,
    trace (snd (check_version app w)) = (trace w ++ added)%list
    /\ Forall (fun ev => is_upgrade ev = false) added
    /\ (existsb is_query added = true <->
        exists t text, fs w !! version_check_marker = Some (File t text)).
Proof.
  destruct (fs w !! version_check_marker) as [[t text | t] |] eqn:H.
  - destruct (check_version_present app w t text H)
      as (e & more & -> & Hmore & _).
    exists (HttpGet (pypi_url app) :: more). cbn [snd trace].
    split; [reflexivity |]. split; [now constructor |].
    cbn [existsb is_query orb]. split; eauto.
  - rewrite (check_version_directory app w t H). exists [].
    cbn [snd]. rewrite app_nil_r. split; [reflexivity |].
    split; [constructor |]. cbn [existsb].
    split; [discriminate | intros (? & ? & ?); discriminate].
  - rewrite (check_version_absent app w H). exists [].
    cbn [snd]. rewrite app_nil_r. split; [reflexivity |].
    split; [constructor |]. cbn [existsb].
    split; [discriminate | intros (? & ? & ?); discriminate].
Qed.

End VersionCheck.

Section VersionCheckClaims.

Context `{C : Collaborators}.

(** C1. What the code does, against the claim: the check is gated on
    the presence of the marker file, not on its absence or its age.
    Without the marker no check is made: the test of the marker's age
    raises [FileNotFoundError] and nothing changes.  With the marker,
    however young, the marker is overwritten at once, then the oracle
    is queried, and the check ends in an exception.  The upgrade action
    is never invoked, in any world. *)
Theorem C1_check_gated_on_marker_presence (app : string) (w : world) :
  (fs w !! version_check_marker = None ->
   check_version app w = (Raise (FileNotFoundError version_check_marker), w))
  /\ (forall t text,
        fs w !! version_check_marker = Some (File t text) ->
        exists e more,
          check_version app w
          = (Raise e,
             World (<[version_check_marker := File (clock w) ""]> (fs w))
                   (clock w)
                   (trace w ++ HttpGet (pypi_url app) :: more)))
  /\ (exists added,
        trace (snd (check_version app w)) = (trace w ++ added)%list
        /\ Forall (fun ev => is_upgrade ev = false) added).
Proof.
  split; [|split].
  - apply check_version_absent.
  - intros t text H.
    destruct (check_version_present app w t text H) as (e & more & He & _).
    eauto.
  - destruct (check_version_trace app w) as (added & H1 & H2 & _). eauto.
Qed.

(** C2. What the code does, against the claim: a failure of the check
    is fatal.  With the marker file present and the oracle unreachable,
    the diagnostic is printed and the query returns [None]; parsing
    [None] as a version raises [TypeError] when the installed version is
    known, and the lookup of the installed version raises [KeyError]
    when it is not.  Nothing catches either: the exception leaves
    [check_version], and [run], which calls the check first, ends with
    it before anything is run. *)
Theorem C2_failed_check_aborts_the_run
  (app : string) (spec : option string) (is_path : bool)
  (app_args : list string) (python : string)
  (pip_args venv_args : list string) (pypackages verbose use_cache : bool)
  (w : world) (t : Z) (text err : string) (installed : option string) :
  fs w !! version_check_marker = Some (File t text) ->
  requests_get (pypi_url app) = inl err ->
  (forall w', venv_package_version (PIPX_LOCAL_VENVS // "{app}") app w'
              = installed) ->
  let e := match installed with
           | Some _ => TypeError "expected string or bytes-like object"
           | None => KeyError app
           end in
  let w' := World (<[version_check_marker := File (clock w) ""]> (fs w))
                  (clock w)
                  (trace w ++ [HttpGet (pypi_url app);
                               Print ("Error during request: " ++ err)]) in
  check_version app w = (Raise e, w')
  /\ run app spec is_path app_args python pip_args venv_args pypackages
         verbose use_cache w = (Raise e, w').
Proof.
  intros H Hget Hinst e w'.
  assert (Hcheck : check_version app w = (Raise e, w')).
  { unfold check_version, FS.exists_.
    rewrite bind_get. fold version_check_marker.
    rewrite (exists_Some _ _ _ H), bind_ret.
    unfold FS.open_w. rewrite !bind_assoc, bind_get, H.
    rewrite bind_assoc, bind_get, bind_set_fs.
    unfold _get_latest_version. fold (pypi_url app).
    rewrite bind_assoc, bind_emit, Hget.
    unfold print. rewrite bind_assoc, bind_emit, bind_ret, bind_get, Hinst.
    subst e w'. cbn [fs clock trace]. rewrite <- app_assoc.
    destruct installed; reflexivity. }
  split; [exact Hcheck | now apply run_raises].
Qed.

(** C9. What the code does, against the claim: the directory of the
    marker is named by the literal text [{app}], not by the
    application.  The marker is one file for all applications: the
    filesystem after the check is the same whatever the application,
    the check changes no other file, and an application's own directory
    is neither read nor written. *)
Theorem C9_one_marker_for_all_applications (app other : string) (w : world) :
  version_check_marker = PIPX_LOCAL_VENVS // "{app}" // "pipx_version_check"
  /\ (app <> "{app}" ->
      version_check_marker <> PIPX_LOCAL_VENVS // app // "pipx_version_check")
  /\ fs (snd (check_version app w)) = fs (snd (check_version other w))
  /\ (forall p, p <> version_check_marker ->
                fs (snd (check_version app w)) !! p = fs w !! p)
  /\ (fs w !! version_check_marker = None ->
      check_version app w
      = (Raise (FileNotFoundError version_check_marker), w)).
Proof.
  split; [reflexivity |].
  split.
  { intros Hne Heq. apply Hne. unfold version_check_marker, pjoin in Heq.
    apply app_inj_tail in Heq as [Heq _].
    apply app_inj_tail in Heq as [_ Heq]. congruence. }
  split; [now rewrite !check_version_fs |].
  split; [|apply check_version_absent].
  intros p Hp. rewrite check_version_fs.
  destruct (fs w !! version_check_marker) as [[? ? | ?] |]; try reflexivity.
  now rewrite lookup_insert_ne.
Qed.

End VersionCheckClaims.

(* ===================================================================== *)
(** ** Expiry of a cache entry *)
(* ===================================================================== *)

Section Expiry.

Context `{C : Collaborators}.

(** C4, amended.  For an entry that exists, the test returns, changes
    nothing, and answers "expired" exactly when the marker file is in
    the entry's directory or the age exceeds the threshold, where the
    age is the clock read in whole seconds minus the creation time, and
    the threshold is the configured number of days.  The comparison is
    strict: at an age equal to the threshold an entry without marker is
    not expired. *)
Theorem C4_expired_iff_marker_or_age (venv_dir : Path) (w : world) (n : node) :
  fs w !! venv_dir = Some n ->
  let age := (sec (clock w / 1000000) - node_ctime n)%Z in
  let threshold :=
    (TEMP_VENV_EXPIRATION_THRESHOLD_DAYS * (24 * 60 * 60 * 1000000))%Z in
  let marked := is_Some (fs w !! (venv_dir // VENV_EXPIRED_FILENAME)) in
  exists expired,
    _is_temporary_venv_expired venv_dir w = (Ret expired, w)
    /\ (expired = true <-> marked \/ (age > threshold)%Z)
    /\ (age = threshold -> ~ marked -> expired = false).
Proof.
  intros H age threshold marked.
  unfold _is_temporary_venv_expired, FS.stat_ctime, mktime_now.
  rewrite !bind_assoc, bind_get, H, bind_ret.
  rewrite bind_assoc, bind_get, bind_ret.
  fold age.
  replace (sec (60 * 60 * 24 * TEMP_VENV_EXPIRATION_THRESHOLD_DAYS))
    with threshold by (unfold threshold, sec; lia).
  destruct (Z.gtb_spec age threshold) as [Hgt | Hle].
  - exists true. split; [reflexivity |].
    split; [split; [intros _; right; lia | reflexivity] |].
    intros Heq. lia.
  - unfold FS.exists_, get.
    exists (bool_decide marked). split; [reflexivity |].
    rewrite bool_decide_eq_true. split.
    + split; [now left | intros [Hm | Hgt]; [exact Hm | lia]].
    + intros _ Hm. now apply bool_decide_eq_false_2.
Qed.

End Expiry.

(* ===================================================================== *)
(** ** The expiration marker of a run without cache *)
(* ===================================================================== *)

Lemma bind_inv_Replaced {A B} (m : M A) (k : A -> M B) w argv w' :
  bind m k w = (Replaced argv, w') ->
  m w = (Replaced argv, w')
  \/ exists a w1, m w = (Ret a, w1) /\ k a w1 = (Replaced argv, w').
Proof.
  unfold bind. destruct (m w) as [[a | e | argv0] w1]; intros H.
  - right. eauto.
  - discriminate.
  - injection H as -> ->. now left.
Qed.

Lemma touch_marks p w w' :
  FS.touch p w = (Ret tt, w') -> is_Some (fs w' !! p).
Proof.
  unfold FS.touch. rewrite !bind_get.
  destruct (fs w !! p) as [[t text | t] |].
  - intros [= <-]. cbn [fs]. rewrite lookup_insert_eq. eauto.
  - intros [= <-]. cbn [fs]. rewrite lookup_insert_eq. eauto.
  - unfold FS.check_parent. rewrite bind_assoc, bind_get.
    destruct (fs w !! FS.parent p) as [[? ? | ?] |]; try discriminate.
    intros [= <-]. cbn [fs]. rewrite lookup_insert_eq. eauto.
Qed.

Lemma touch_no_exec p : no_exec (FS.touch p).
Proof.
  intros w argv w'. unfold FS.touch. rewrite !bind_get.
  destruct (fs w !! p) as [[t text | t] |]; try discriminate.
  unfold FS.check_parent. rewrite bind_assoc, bind_get.
  destruct (fs w !! FS.parent p) as [[? ? | ?] |]; discriminate.
Qed.

Section Marker.

Context `{C : Collaborators}.

(** The package run: when the provisioner only returns or raises, the
    application is launched by [_download_and_run] from a world in which
    the marker file is in the directory of the environment. *)
Lemma download_and_run_marks
  venv_dir package_or_url app app_filename app_args python pip_args
  venv_args verbose w argv w' :
  no_exec (venv_create_venv venv_dir python verbose venv_args pip_args) ->
  no_exec (package_name_from_spec package_or_url python pip_args verbose) ->
  (forall package_name,
      no_exec (venv_install_package venv_dir python verbose package_name
                                    package_or_url pip_args)) ->
  _download_and_run venv_dir package_or_url app app_filename app_args
                    python pip_args venv_args false verbose w
  = (Replaced argv, w') ->
  is_Some (fs w' !! (venv_dir // VENV_EXPIRED_FILENAME)).
Proof.
  intros Hcreate Hname Hinstall. unfold _download_and_run.
  intros H.
  apply bind_inv_Replaced in H as [H | (_ & w1 & _ & H)];
    [now apply Hcreate in H |].
  rewrite bind_get in H.
  apply bind_inv_Replaced in H as [H | (package_name & w2 & _ & H)].
  { destruct (fst (venv_main_package venv_dir w1));
      [discriminate | now apply Hname in H]. }
  apply bind_inv_Replaced in H as [H | (_ & w3 & _ & H)];
    [now apply Hinstall in H |].
  rewrite bind_get in H.
  apply bind_inv_Replaced in H as [H | (target & w4 & _ & H)].
  { exfalso. revert H.
    destruct (venv_has_app venv_dir app app_filename w3); cbn [negb];
      [discriminate |].
    rewrite bind_get.
    destruct (_ && _); [|discriminate].
    unfold print, logger_info. rewrite bind_emit.
    destruct WINDOWS; [rewrite bind_emit |]; discriminate. }
  cbn [negb] in H.
  apply bind_inv_Replaced in H as [H | ([] & w5 & Htouch & H)];
    [now apply touch_no_exec in H |].
  apply touch_marks in Htouch.
  unfold run_app, exec_app in H. now injection H as _ <-.
Qed.

End Marker.

(* ===================================================================== *)
(** ** The module at work on the reference instance *)
(* ===================================================================== *)

Module Evaluation.

Local Open Scope Z_scope.

(** C3. What the code does, against the claim: a script run never
    writes the expiration marker.  The script below has a requirement
    header and is run with caching disabled in a world with an empty
    cache: the environment is built in the directory of its
    fingerprint, the script is launched with the interpreter of that
    environment, and at that moment the directory has no marker file.
    The directory stays until the age threshold, not until the next
    sweep. *)
Theorem C3_script_run_writes_no_marker :
  let venv_dir :=
    @_get_temporary_venv_path Demo.offline ["requests>=2"] "python3" [] [] in
  let outcome :=
    @run_script Demo.offline script_with_header [] "python3" [] []
                false false (Demo.empty_world 1000) in
  fs (Demo.empty_world 1000) !! venv_dir = None
  /\ fst outcome
     = Replaced ["cache/0d1c99e31446dae/bin/python"; "-c"; script_with_header]
  /\ fs (snd outcome) !! venv_dir = Some (Dir 1000)
  /\ fs (snd outcome) !! (venv_dir // VENV_EXPIRED_FILENAME) = None.
Proof. vm_compute. repeat split; reflexivity. Qed.

(** The package run of the same world does write it. *)
Example package_run_writes_marker :
  let venv_dir :=
    @_get_temporary_venv_path Demo.offline ["foo"] "python3" [] [] in
  let outcome :=
    @run_package Demo.offline "foo" "foo" [] "python3" [] []
                 false false false (Demo.empty_world 1000) in
  fst outcome = Replaced ["cache/a27bd3fb6b9a8ed/bin/foo-cli"]
  /\ fs (snd outcome) !! (venv_dir // VENV_EXPIRED_FILENAME)
     = Some (File 1000 "").
Proof. vm_compute. split; reflexivity. Qed.

(** C4, as stated, fails: an entry created at time 0, without marker,
    tested one microsecond after 14 days.  Its age, now minus creation
    time, exceeds the threshold of 14 days, and the test answers "not
    expired": the clock is read in whole seconds. *)
Lemma C4_counterexample :
  let w := Demo.entry_world 0 (14 * Demo.day + 1) in
  let threshold := 14 * Demo.day in
  fs w !! Demo.entry = Some (Dir 0)
  /\ fs w !! (Demo.entry // VENV_EXPIRED_FILENAME) = None
  /\ clock w - 0 > threshold
  /\ @_is_temporary_venv_expired Demo.offline Demo.entry w = (Ret false, w)
  /\ ~ (fst (@_is_temporary_venv_expired Demo.offline Demo.entry w) = Ret true
        <-> is_Some (fs w !! (Demo.entry // VENV_EXPIRED_FILENAME))
            \/ clock w - 0 > threshold).
Proof.
  cbv zeta.
  assert (H : @_is_temporary_venv_expired Demo.offline Demo.entry
                (Demo.entry_world 0 (14 * Demo.day + 1))
              = (Ret false, Demo.entry_world 0 (14 * Demo.day + 1)))
    by (vm_compute; reflexivity).
  split; [vm_compute; reflexivity |].
  split; [vm_compute; reflexivity |].
  split; [vm_compute; reflexivity |].
  split; [exact H |].
  rewrite H. cbn [fst]. intros [_ Hback].
  discriminate Hback. right. vm_compute. reflexivity.
Qed.

Lemma C4_witness :
  exists expired,
    @_is_temporary_venv_expired Demo.offline Demo.entry
      (Demo.entry_world 0 (14 * Demo.day + 1000000))
    = (Ret expired, Demo.entry_world 0 (14 * Demo.day + 1000000))
    /\ expired = true.
Proof.
  destruct (@C4_expired_iff_marker_or_age Demo.offline Demo.entry
              (Demo.entry_world 0 (14 * Demo.day + 1000000)) (Dir 0)
              eq_refl)
    as (expired & Hrun & Hiff & _).
  exists expired. split; [exact Hrun |].
  apply Hiff. right. vm_compute. reflexivity.
Defined.

(** C1 at a failing input: the marker is one second old. *)
Lemma C1_witness :
  (exists e more,
      @check_version Demo.online "black" (Demo.marker_world 0 1000000)
      = (Raise e,
         World (<[ @version_check_marker Demo.online := File 1000000 "" ]>
                  (fs (Demo.marker_world 0 1000000)))
               1000000
               ([] ++ HttpGet (@pypi_url "black") :: more)))
  /\ @check_version Demo.online "black" (Demo.marker_world 0 1000000)
     = (Raise (TypeError "expected string or bytes-like object"),
        World (fs (Demo.marker_world 1000000 1000000)) 1000000
              [HttpGet "https://pypi.org/project/black/";
               Print "The latest version of black is: 2.0"]).
Proof.
  split.
  - apply (proj1 (proj2 (@C1_check_gated_on_marker_presence
                           Demo.online "black"
                           (Demo.marker_world 0 1000000))) 0 "").
    reflexivity.
  - vm_compute. reflexivity.
Defined.

(** C2 at a failing input: the oracle is unreachable. *)
Lemma C2_witness :
  fst (@run Demo.offline "black" None false [] "python3" [] []
            false false true (Demo.marker_world 0 (2 * Demo.day)))
  = Raise (TypeError "expected string or bytes-like object").
Proof.
  rewrite (proj2 (@C2_failed_check_aborts_the_run
                    Demo.offline "black" None false [] "python3" [] []
                    false false true (Demo.marker_world 0 (2 * Demo.day))
                    0 "" "connection refused" (Some "1.0")
                    eq_refl eq_refl (fun _ => eq_refl))).
  reflexivity.
Defined.

(** C9 at a failing input: two applications. *)
Lemma C9_witness :
  fs (snd (@check_version Demo.offline "black" (Demo.marker_world 0 1000000)))
  = fs (snd (@check_version Demo.offline "cowsay"
                            (Demo.marker_world 0 1000000)))
  /\ @version_check_marker Demo.offline
     <> ["venvs"; "black"; "pipx_version_check"].
Proof.
  destruct (@C9_one_marker_for_all_applications
              Demo.offline "black" "cowsay" (Demo.marker_world 0 1000000))
    as (_ & Hne & Hfs & _).
  split; [exact Hfs | apply Hne; discriminate].
Defined.

(** C5 on a package with one application and on one with two. *)
Lemma C5_witness :
  fst (@_download_and_run Demo.offline Demo.entry "foo" "foo" "foo" ["--help"]
         "python3" [] [] false false (Demo.empty_world 1000))
  = Replaced ["cache/0123456789abcde/bin/foo-cli"; "--help"]
  /\ exists msg,
      fst (@_download_and_run Demo.offline Demo.entry "multi" "multi" "multi" []
             "python3" [] [] false false (Demo.empty_world 1000))
      = Raise (PipxError msg)
      /\ contains msg "'multi' executable script not found"
      /\ contains msg "a - usage: 'pipx run --spec multi a [arguments?]'"
      /\ contains msg "b - usage: 'pipx run --spec multi b [arguments?]'".
Proof.
  split.
  - destruct (@C5_missing_app_resolution
                Demo.offline Demo.entry "foo" "foo" "foo" ["--help"]
                "python3" [] [] false false (Demo.empty_world 1000)
                (Demo.built (Demo.empty_world 1000)) (Demo.built (Demo.empty_world 1000))
                (Demo.installed "foo" (Demo.built (Demo.empty_world 1000))) "foo" 1000)
      as [Hsingle _].
    + vm_compute. reflexivity.
    + vm_compute. reflexivity.
    + vm_compute. reflexivity.
    + vm_compute. reflexivity.
    + vm_compute. reflexivity.
    + destruct (Hsingle "foo-cli" eq_refl) as [Hrun _].
      * vm_compute. reflexivity.
      * exact Hrun.
  - destruct (@C5_missing_app_resolution
                Demo.offline Demo.entry "multi" "multi" "multi" []
                "python3" [] [] false false (Demo.empty_world 1000)
                (Demo.built (Demo.empty_world 1000)) (Demo.built (Demo.empty_world 1000))
                (Demo.installed "multi" (Demo.built (Demo.empty_world 1000))) "multi" 1000)
      as [_ Hmany].
    + vm_compute. reflexivity.
    + vm_compute. reflexivity.
    + vm_compute. reflexivity.
    + vm_compute. reflexivity.
    + vm_compute. reflexivity.
    + destruct Hmany as (msg & Hrun & _ & Hreq & Hlines).
      * intros [_ Hlen]. vm_compute in Hlen. discriminate.
      * exists msg. rewrite Hrun. split; [reflexivity |].
        split; [exact Hreq |].
        apply List.Forall_forall with (x := "a") in Hlines as Ha; [|vm_compute; auto].
        apply List.Forall_forall with (x := "b") in Hlines as Hb; [|vm_compute; auto].
        split; [exact Ha | exact Hb].
Defined.

End Evaluation.

(* ===================================================================== *)
(** ** The sweep of the cache *)
(* ===================================================================== *)

Lemma lookup_rmtree (d : Path) (f : gmap Path node) (p : Path) :
  FS.rmtree d f !! p = if bool_decide (d `prefix_of` p) then None else f !! p.
Proof.
  unfold FS.rmtree. case_bool_decide as Hp.
  - apply map_lookup_filter_None. right. intros n _ Hn. now apply Hn.
  - destruct (f !! p) as [n|] eqn:E.
    + apply map_lookup_filter_Some. split; [exact E | exact Hp].
    + apply map_lookup_filter_None. now left.
Qed.

Lemma sibling_not_prefix (c c' : Path) :
  length c = length c' -> c <> c' -> ~ c `prefix_of` c'.
Proof.
  intros Hlen Hne Hp. apply Hne. apply prefix_length_eq; [exact Hp | lia].
Qed.

Lemma sibling_not_prefix_child (c c' : Path) name :
  length c = length c' -> c <> c' -> ~ c `prefix_of` (c' // name).
Proof.
  intros Hlen Hne [k Hk]. apply Hne. unfold pjoin in Hk.
  symmetry in Hk. apply app_inj_1 in Hk as [Hk _]; [exact Hk | exact Hlen].
Qed.

Lemma child_length (d c : Path) : FS.is_child d c -> length c = S (length d).
Proof.
  intros [Hp Hne]. unfold FS.parent in Hp.
  rewrite (app_removelast_last "" Hne), Hp, length_app. cbn. lia.
Qed.

Lemma child_pjoin (d : Path) (name : string) : FS.is_child d (d // name).
Proof.
  split; [apply parent_pjoin |]. unfold pjoin. now destruct d.
Qed.

Section Sweep.

Context `{C : Collaborators}.

Lemma is_temporary_venv_expired_eval venv_dir w n :
  fs w !! venv_dir = Some n ->
  _is_temporary_venv_expired venv_dir w = (Ret (expired_now w venv_dir n), w).
Proof.
  intros H. unfold _is_temporary_venv_expired, FS.stat_ctime, mktime_now.
  rewrite !bind_assoc, bind_get, H, bind_ret.
  rewrite bind_assoc, bind_get, bind_ret.
  unfold expired_now.
  destruct (_ >? _)%Z; reflexivity.
Qed.

Lemma is_temporary_venv_expired_missing venv_dir w :
  fs w !! venv_dir = None ->
  _is_temporary_venv_expired venv_dir w = (Raise (FileNotFoundError venv_dir), w).
Proof.
  intros H. unfold _is_temporary_venv_expired, FS.stat_ctime.
  now rewrite !bind_assoc, bind_get, H.
Qed.

Lemma sweep_entry_eval c w n :
  fs w !! c = Some n ->
  exists tr,
    sweep_entry c w
    = (Ret tt, World (if doomed w c then FS.rmtree c (fs w) else fs w)
                     (clock w) tr).
Proof.
  intros H. unfold sweep_entry.
  rewrite (bind_Ret _ _ _ _ _ (is_temporary_venv_expired_eval c w n H)).
  unfold doomed. rewrite H.
  destruct (expired_now w c n) eqn:E.
  - unfold logger_info, rmdir. rewrite bind_emit, bind_get. cbn [fs].
    rewrite H. destruct n as [t text | t].
    + eexists. reflexivity.
    + rewrite E. eexists. reflexivity.
  - destruct n as [t text | t]; [|rewrite E]; destruct w; eexists; reflexivity.
Qed.

Lemma doomed_ext w w1 c :
  clock w1 = clock w ->
  fs w1 !! c = fs w !! c ->
  fs w1 !! (c // VENV_EXPIRED_FILENAME) = fs w !! (c // VENV_EXPIRED_FILENAME) ->
  doomed w1 c = doomed w c.
Proof.
  intros Hc Hf Hm. unfold doomed, expired_now. now rewrite Hc, Hf, Hm.
Qed.

Lemma sweep_loop (cs : list Path) : forall w L,
  NoDup cs ->
  (forall c, In c cs -> length c = L) ->
  (forall c, In c cs -> is_Some (fs w !! c)) ->
  exists w',
    for_each cs sweep_entry w = (Ret tt, w')
    /\ clock w' = clock w
    /\ forall p,
        fs w' !! p
        = if existsb (fun c => doomed w c && bool_decide (c `prefix_of` p)) cs
          then None else fs w !! p.
Proof.
  induction cs as [|c cs IH]; intros w L Hnd Hlen Hin.
  - exists w. repeat split.
  - apply NoDup_cons in Hnd as [Hc Hnd].
    destruct (Hin c (or_introl eq_refl)) as [n Hn].
    destruct (sweep_entry_eval c w n Hn) as [tr Hstep].
    set (w1 := World _ _ _) in Hstep.
    assert (Hkeep : forall c', In c' cs ->
              fs w1 !! c' = fs w !! c'
              /\ fs w1 !! (c' // VENV_EXPIRED_FILENAME)
                 = fs w !! (c' // VENV_EXPIRED_FILENAME)).
    { intros c' Hc'.
      assert (Hne : c <> c').
      { intros ->. apply Hc. now apply list_elem_of_In. }
      assert (Hl : length c = length c').
      { now rewrite (Hlen c (or_introl eq_refl)), (Hlen c' (or_intror Hc')). }
      subst w1. cbn [fs]. destruct (doomed w c); [|split; reflexivity].
      rewrite !lookup_rmtree.
      rewrite !bool_decide_eq_false_2;
        [split; reflexivity
        | now apply sibling_not_prefix_child
        | now apply sibling_not_prefix]. }
    destruct (IH w1 L Hnd) as (w' & Hrun & Hclock & Hfs).
    { intros c' Hc'. apply Hlen. now right. }
    { intros c' Hc'. rewrite (proj1 (Hkeep c' Hc')). apply Hin. now right. }
    exists w'. split; [|split].
    + cbn [for_each]. now rewrite (bind_Ret _ _ _ _ _ Hstep).
    + exact Hclock.
    + intros p. rewrite Hfs. cbn [existsb].
      assert (Hex : existsb (fun c0 => doomed w1 c0 && bool_decide (c0 `prefix_of` p)) cs
                    = existsb (fun c0 => doomed w c0 && bool_decide (c0 `prefix_of` p)) cs).
      { clear -Hkeep. induction cs as [|c' cs IHcs]; [reflexivity |].
        cbn [existsb]. rewrite IHcs.
        - f_equal. f_equal. apply doomed_ext; [reflexivity | |];
            apply (Hkeep c'); now left.
        - intros c'' H''. apply Hkeep. now right. }
      rewrite Hex. clear Hex.
      destruct (existsb _ cs); [now rewrite orb_true_r |].
      rewrite orb_false_r. subst w1. cbn [fs].
      destruct (doomed w c); cbn [andb]; [|reflexivity].
      apply lookup_rmtree.
Qed.

Lemma cache_entries_In w c :
  In c (cache_entries w)
  <-> FS.is_child PIPX_VENV_CACHEDIR c /\ is_Some (fs w !! c).
Proof.
  unfold cache_entries. rewrite filter_In, bool_decide_eq_true, in_map_iff.
  split.
  - intros [([k n] & <- & Hin) Hc]. split; [exact Hc |].
    apply list_elem_of_In, elem_of_map_to_list in Hin. cbn. eauto.
  - intros [Hc [n Hn]]. split; [|exact Hc].
    exists (c, n). split; [reflexivity |].
    now apply list_elem_of_In, elem_of_map_to_list.
Qed.

Lemma cache_entries_NoDup w : NoDup (cache_entries w).
Proof.
  unfold cache_entries. apply NoDup_ListNoDup, List.NoDup_filter, NoDup_ListNoDup.
  replace (map fst (map_to_list (fs w))) with ((map_to_list (fs w)).*1).
  - apply NoDup_fst_map_to_list.
  - generalize (map_to_list (fs w)). intros l.
    induction l as [|x l IH]; [reflexivity | cbn; now f_equal].
Qed.

(** The sweep, entry by entry. *)
Lemma sweep_fs w t :
  fs w !! PIPX_VENV_CACHEDIR = Some (Dir t) ->
  exists w',
    _remove_all_expired_venvs w = (Ret tt, w')
    /\ clock w' = clock w
    /\ forall p,
        fs w' !! p
        = if existsb (fun c => doomed w c && bool_decide (c `prefix_of` p))
                     (cache_entries w)
          then None else fs w !! p.
Proof.
  intros Hd. unfold _remove_all_expired_venvs, FS.iterdir.
  rewrite bind_assoc, bind_get, Hd, bind_get.
  fold (cache_entries w).
  apply (sweep_loop (cache_entries w) w (S (length PIPX_VENV_CACHEDIR))).
  - apply cache_entries_NoDup.
  - intros c Hc. apply cache_entries_In in Hc as [Hc _].
    now apply child_length.
  - intros c Hc. now apply cache_entries_In in Hc as [_ Hc].
Qed.

Lemma swept_true w p :
  existsb (fun c => doomed w c && bool_decide (c `prefix_of` p))
          (cache_entries w) = true
  <-> exists c, FS.is_child PIPX_VENV_CACHEDIR c /\ doomed w c = true
                /\ c `prefix_of` p.
Proof.
  rewrite existsb_exists. split.
  - intros (c & Hin & H). apply andb_true_iff in H as [Hdoom Hp].
    apply bool_decide_eq_true in Hp. apply cache_entries_In in Hin as [Hc _].
    eauto.
  - intros (c & Hc & Hdoom & Hp). exists c. split.
    + apply cache_entries_In. split; [exact Hc |].
      unfold doomed in Hdoom. destruct (fs w !! c); [eauto | discriminate].
    + rewrite Hdoom. now apply bool_decide_eq_true_2.
Qed.

(** X6. With the cache directory in place the sweep returns and leaves
    the clock alone.  An entry of the cache that is a directory and that
    the expiry test condemns is gone afterwards with everything under it;
    a path under no such entry is as it was. *)
Theorem X6_sweep_removes_expired_entries w t :
  fs w !! PIPX_VENV_CACHEDIR = Some (Dir t) ->
  exists w',
    _remove_all_expired_venvs w = (Ret tt, w')
    /\ clock w' = clock w
    /\ (forall c p, FS.is_child PIPX_VENV_CACHEDIR c -> doomed w c = true ->
                    c `prefix_of` p -> fs w' !! p = None)
    /\ (forall p, (forall c, FS.is_child PIPX_VENV_CACHEDIR c ->
                             c `prefix_of` p -> doomed w c = false) ->
                  fs w' !! p = fs w !! p).
Proof.
  intros Hd. destruct (sweep_fs w t Hd) as (w' & Hrun & Hclock & Hfs).
  exists w'. split; [exact Hrun |]. split; [exact Hclock |]. split.
  - intros c p Hc Hdoom Hp. rewrite Hfs.
    rewrite (proj2 (swept_true w p)); [reflexivity | eauto].
  - intros p Hlive. rewrite Hfs.
    destruct (existsb _ _) eqn:E; [|reflexivity].
    apply swept_true in E as (c & Hc & Hdoom & Hp).
    rewrite (Hlive c Hc Hp) in Hdoom. discriminate.
Qed.

Lemma child_prefix_unique (c v p : Path) d :
  FS.is_child d c -> FS.is_child d v ->
  c `prefix_of` p -> v `prefix_of` p -> c = v.
Proof.
  intros Hc Hv Hcp Hvp.
  apply child_length in Hc, Hv.
  destruct (prefix_weak_total _ _ _ Hcp Hvp) as [H | H].
  - apply prefix_length_eq; [exact H | lia].
  - symmetry. apply prefix_length_eq; [exact H | lia].
Qed.

Lemma child_not_above (c p d : Path) :
  FS.is_child d c -> c `prefix_of` p -> d `prefix_of` p /\ p <> d.
Proof.
  intros Hc Hp. pose proof (child_length _ _ Hc) as Hlen.
  destruct Hc as [Hpar Hne]. split.
  - transitivity c; [|exact Hp].
    rewrite (app_removelast_last "" Hne). unfold FS.parent in Hpar.
    rewrite Hpar. now apply prefix_app_r.
  - intros ->. apply prefix_length in Hp. lia.
Qed.

(** X7. The sweep keeps the cache directory itself, every path outside
    the cache directory, and every entry that is not expired together
    with all that is under it. *)
Theorem X7_sweep_keeps_everything_else w t :
  fs w !! PIPX_VENV_CACHEDIR = Some (Dir t) ->
  exists w',
    _remove_all_expired_venvs w = (Ret tt, w')
    /\ clock w' = clock w
    /\ fs w' !! PIPX_VENV_CACHEDIR = Some (Dir t)
    /\ (forall p, ~ PIPX_VENV_CACHEDIR `prefix_of` p ->
                  fs w' !! p = fs w !! p)
    /\ (forall venv_dir p,
          FS.is_child PIPX_VENV_CACHEDIR venv_dir ->
          doomed w venv_dir = false ->
          venv_dir `prefix_of` p ->
          fs w' !! p = fs w !! p).
Proof.
  intros Hd. destruct (sweep_fs w t Hd) as (w' & Hrun & Hclock & Hfs).
  assert (Hlive : forall p,
             (forall c, FS.is_child PIPX_VENV_CACHEDIR c ->
                        c `prefix_of` p -> doomed w c = false) ->
             fs w' !! p = fs w !! p).
  { intros p Hp. rewrite Hfs.
    destruct (existsb _ _) eqn:E; [|reflexivity].
    apply swept_true in E as (c & Hc & Hdoom & Hcp).
    rewrite (Hp c Hc Hcp) in Hdoom. discriminate. }
  exists w'. split; [exact Hrun |]. split; [exact Hclock |].
  split; [|split].
  - rewrite <- Hd. apply Hlive. intros c Hc Hcp.
    now destruct (child_not_above c _ _ Hc Hcp) as [_ []].
  - intros p Hp. apply Hlive. intros c Hc Hcp.
    now destruct Hp, (child_not_above c p _ Hc Hcp).
  - intros v p Hv Hdoom Hvp. apply Hlive. intros c Hc Hcp.
    now rewrite (child_prefix_unique c v p _ Hc Hv Hcp Hvp).
Qed.


(** X9. Without the cache directory the sweep raises
    [FileNotFoundError], and [NotADirectoryError] when a file has its
    name; nothing changes. *)
Theorem X9_sweep_without_cache_directory w :
  (fs w !! PIPX_VENV_CACHEDIR = None ->
   _remove_all_expired_venvs w
   = (Raise (FileNotFoundError PIPX_VENV_CACHEDIR), w))
  /\ (forall t text,
        fs w !! PIPX_VENV_CACHEDIR = Some (File t text) ->
        _remove_all_expired_venvs w
        = (Raise (NotADirectoryError PIPX_VENV_CACHEDIR), w)).
Proof.
  split; [intros H | intros t text H];
    unfold _remove_all_expired_venvs, FS.iterdir;
    now rewrite bind_assoc, bind_get, H.
Qed.

End Sweep.

(* ===================================================================== *)
(** ** The preparation of the cache before a run *)
(* ===================================================================== *)

Ltac run_steps :=
  repeat first
    [ rewrite bind_assoc | rewrite bind_get | rewrite bind_ret
    | rewrite bind_emit | rewrite bind_set_fs ];
  cbn [fs clock trace].

Section Prepare.

Context `{C : Collaborators}.

(** With the cache in use, or without the executable of the
    environment, the preparation is the sweep alone. *)
Lemma prepare_is_sweep venv bin_path use_cache w :
  use_cache = true \/ (exists b, bin_path = Some b /\ fs w !! b = None) ->
  _prepare_venv_cache venv bin_path use_cache w = _remove_all_expired_venvs w.
Proof.
  intros [-> | (b & -> & Hb)]; unfold _prepare_venv_cache.
  - reflexivity.
  - destruct use_cache; [reflexivity |]. cbn [negb].
    unfold FS.exists_. rewrite !bind_assoc, bind_get, (exists_None _ _ Hb).
    reflexivity.
Qed.

Lemma prepare_keeps venv bin_path use_cache w t :
  fs w !! PIPX_VENV_CACHEDIR = Some (Dir t) ->
  FS.is_child PIPX_VENV_CACHEDIR venv ->
  doomed w venv = false ->
  use_cache = true \/ (exists b, bin_path = Some b /\ fs w !! b = None) ->
  exists w',
    _prepare_venv_cache venv bin_path use_cache w = (Ret tt, w')
    /\ clock w' = clock w
    /\ forall p, venv `prefix_of` p -> fs w' !! p = fs w !! p.
Proof.
  intros Hd Hv Hlive Hkeep. rewrite (prepare_is_sweep _ _ _ _ Hkeep).
  destruct (sweep_fs w t Hd) as (w' & Hrun & Hclock & Hfs).
  exists w'. split; [exact Hrun |]. split; [exact Hclock |].
  intros p Hp. rewrite Hfs.
  destruct (existsb _ _) eqn:E; [|reflexivity].
  apply swept_true in E as (c & Hc & Hdoom & Hcp).
  rewrite (child_prefix_unique c venv p _ Hc Hv Hcp Hp) in Hdoom. congruence.
Qed.

Lemma prepare_removes venv bin_path w t t' :
  fs w !! PIPX_VENV_CACHEDIR = Some (Dir t) ->
  FS.is_child PIPX_VENV_CACHEDIR venv ->
  fs w !! venv = Some (Dir t') ->
  bin_path = None \/ (exists b, bin_path = Some b /\ is_Some (fs w !! b)) ->
  exists w',
    _prepare_venv_cache venv bin_path false w = (Ret tt, w')
    /\ (forall p, venv `prefix_of` p -> fs w' !! p = None)
    /\ (forall p, ~ PIPX_VENV_CACHEDIR `prefix_of` p ->
                  fs w' !! p = fs w !! p).
Proof.
  intros Hd Hv Hvenv Hbin.
  set (w1 := World (FS.rmtree venv (fs w)) (clock w)
                   (trace w ++ [Log "INFO" ("Removing cached venv "
                                            ++ path_str venv)])).
  assert (Hfirst : _prepare_venv_cache venv bin_path false w
                   = _remove_all_expired_venvs w1).
  { unfold _prepare_venv_cache. cbn [negb].
    assert (Hpresent : match bin_path with
                       | None => ret true
                       | Some p => FS.exists_ p
                       end w = (Ret true, w)).
    { destruct Hbin as [-> | (b & -> & [n Hn])]; [reflexivity |].
      unfold FS.exists_, get. now rewrite (exists_Some _ _ _ Hn). }
    rewrite !bind_assoc, (bind_Ret _ _ _ _ _ Hpresent).
    unfold logger_info, rmdir.
    run_steps. rewrite Hvenv. reflexivity. }
  assert (Hd1 : fs w1 !! PIPX_VENV_CACHEDIR = Some (Dir t)).
  { subst w1. cbn [fs].
    rewrite lookup_rmtree, bool_decide_eq_false_2; [exact Hd |].
    intros Hp. apply prefix_length in Hp. apply child_length in Hv. lia. }
  destruct (sweep_fs w1 t Hd1) as (w' & Hrun & _ & Hfs).
  exists w'. split; [now rewrite Hfirst |]. split.
  - intros p Hp. rewrite Hfs. destruct (existsb _ _); [reflexivity |].
    subst w1. cbn [fs]. rewrite lookup_rmtree.
    now rewrite bool_decide_eq_true_2.
  - intros p Hp. rewrite Hfs. destruct (existsb _ _) eqn:E.
    + apply swept_true in E as (c & Hc & _ & Hcp).
      now destruct Hp, (child_not_above c p _ Hc Hcp).
    + subst w1. cbn [fs].
      rewrite lookup_rmtree, bool_decide_eq_false_2; [reflexivity |].
      intros Hvp. now destruct Hp, (child_not_above venv p _ Hv Hvp).
Qed.

(** X10. When the cache is in use, or when the executable looked for in
    the environment is not there, the preparation removes nothing of an
    environment that is not expired: its directory and all that is under
    it are as before, as are the cache directory and the clock. *)
Theorem X10_prepare_keeps_live_environment venv bin_path use_cache w t :
  fs w !! PIPX_VENV_CACHEDIR = Some (Dir t) ->
  FS.is_child PIPX_VENV_CACHEDIR venv ->
  doomed w venv = false ->
  use_cache = true \/ (exists b, bin_path = Some b /\ fs w !! b = None) ->
  exists w',
    _prepare_venv_cache venv bin_path use_cache w = (Ret tt, w')
    /\ clock w' = clock w
    /\ fs w' !! PIPX_VENV_CACHEDIR = Some (Dir t)
    /\ forall p, venv `prefix_of` p -> fs w' !! p = fs w !! p.
Proof.
  intros Hd Hv Hlive Hkeep. rewrite (prepare_is_sweep _ _ _ _ Hkeep).
  destruct (sweep_fs w t Hd) as (w' & Hrun & Hclock & Hfs).
  exists w'. split; [exact Hrun |]. split; [exact Hclock |]. split.
  - rewrite Hfs. destruct (existsb _ _) eqn:E; [|exact Hd].
    apply swept_true in E as (c & Hc & _ & Hcp).
    now destruct (child_not_above c _ _ Hc Hcp) as [_ []].
  - intros p Hp. rewrite Hfs.
    destruct (existsb _ _) eqn:E; [|reflexivity].
    apply swept_true in E as (c & Hc & Hdoom & Hcp).
    rewrite (child_prefix_unique c venv p _ Hc Hv Hcp Hp) in Hdoom.
    congruence.
Qed.

(** X11. With caching disabled, and no executable asked for or the
    executable present, the preparation deletes the directory of the
    environment with all that is under it before the sweep, and nothing
    outside the cache directory changes. *)
Theorem X11_prepare_without_cache_removes venv bin_path w t t' :
  fs w !! PIPX_VENV_CACHEDIR = Some (Dir t) ->
  FS.is_child PIPX_VENV_CACHEDIR venv ->
  fs w !! venv = Some (Dir t') ->
  bin_path = None \/ (exists b, bin_path = Some b /\ is_Some (fs w !! b)) ->
  exists w',
    _prepare_venv_cache venv bin_path false w = (Ret tt, w')
    /\ (forall p, venv `prefix_of` p -> fs w' !! p = None)
    /\ (forall p, ~ PIPX_VENV_CACHEDIR `prefix_of` p ->
                  fs w' !! p = fs w !! p).
Proof. intros Hd Hv Hvenv Hbin. now apply (prepare_removes venv bin_path w t t'). Qed.

End Prepare.

(* ===================================================================== *)
(** ** More on strings, and on extraction *)
(* ===================================================================== *)

Lemma lstrip_blank_app ws s : blank ws -> PyStr.lstrip (ws ++ s) = PyStr.lstrip s.
Proof.
  unfold blank. induction ws as [|c ws IH]; intros H; [reflexivity |].
  rewrite append_cons. cbn [PyStr.lstrip] in *.
  destruct (PyStr.isspace c); [now apply IH | discriminate].
Qed.

Lemma rstrip_blank ws : blank ws -> PyStr.rstrip ws = "".
Proof.
  unfold blank. induction ws as [|c ws IH]; intros H; [reflexivity |].
  cbn [PyStr.lstrip PyStr.rstrip] in *.
  destruct (PyStr.isspace c); [|discriminate]. now rewrite IH.
Qed.

Lemma rstrip_app_blank s ws : blank ws -> PyStr.rstrip (s ++ ws) = PyStr.rstrip s.
Proof.
  intros H. induction s as [|c s IH].
  - rewrite append_nil_l. now apply rstrip_blank.
  - rewrite append_cons. cbn [PyStr.rstrip]. now rewrite IH.
Qed.

Lemma blank_app a b : blank a -> blank b -> blank (a ++ b).
Proof. intros Ha Hb. unfold blank. now rewrite lstrip_blank_app. Qed.

Lemma lstrip_app_blank s ws :
  blank ws ->
  PyStr.lstrip (s ++ ws) = if PyStr.nonempty (PyStr.lstrip s)
                           then PyStr.lstrip s ++ ws else "".
Proof.
  intros H. induction s as [|c s IH].
  - rewrite append_nil_l. exact H.
  - rewrite append_cons. cbn [PyStr.lstrip].
    destruct (PyStr.isspace c); [exact IH | reflexivity].
Qed.

Lemma strip_blank_around a s b :
  blank a -> blank b -> PyStr.strip (a ++ s ++ b) = PyStr.strip s.
Proof.
  intros Ha Hb. unfold PyStr.strip.
  rewrite (lstrip_blank_app a _ Ha), (lstrip_app_blank s b Hb).
  destruct (PyStr.lstrip s) eqn:E; [reflexivity |].
  cbn [PyStr.nonempty]. now apply rstrip_app_blank.
Qed.

Lemma lstrip_idem s : PyStr.lstrip (PyStr.lstrip s) = PyStr.lstrip s.
Proof.
  induction s as [|c s IH]; [reflexivity |]. cbn [PyStr.lstrip].
  destruct (PyStr.isspace c) eqn:E; [exact IH |].
  cbn [PyStr.lstrip]. now rewrite E.
Qed.

Lemma rstrip_idem s : PyStr.rstrip (PyStr.rstrip s) = PyStr.rstrip s.
Proof.
  induction s as [|c s IH]; [reflexivity |]. cbn [PyStr.rstrip].
  destruct (PyStr.rstrip s) as [|c' r] eqn:E.
  - destruct (PyStr.isspace c) eqn:Ec; [reflexivity |].
    cbn [PyStr.rstrip]. now rewrite Ec.
  - change (PyStr.rstrip (String c (String c' r)))
      with (match PyStr.rstrip (String c' r) with
            | "" => if PyStr.isspace c then "" else String c ""
            | r' => String c r' end).
    now rewrite IH.
Qed.

(** The first character left by [strip], and the last, are no whitespace. *)
Lemma lstrip_head s c r : PyStr.lstrip s = String c r -> PyStr.isspace c = false.
Proof.
  induction s as [|x s IH]; [discriminate |]. cbn [PyStr.lstrip].
  destruct (PyStr.isspace x) eqn:E; [exact IH | now intros [= <- _]].
Qed.

Lemma rstrip_lstrip_comm s :
  PyStr.lstrip (PyStr.rstrip s) = PyStr.rstrip (PyStr.lstrip s).
Proof.
  induction s as [|c s IH]; [reflexivity |].
  cbn [PyStr.lstrip PyStr.rstrip].
  destruct (PyStr.isspace c) eqn:E.
  - destruct (PyStr.rstrip s) eqn:Er.
    + cbn [PyStr.lstrip] in *. exact IH.
    + cbn [PyStr.lstrip]. rewrite E. exact IH.
  - cbn [PyStr.rstrip].
    destruct (PyStr.rstrip s) eqn:Er; cbn [PyStr.lstrip]; now rewrite E.
Qed.

Lemma strip_idem s : PyStr.strip (PyStr.strip s) = PyStr.strip s.
Proof.
  unfold PyStr.strip.
  now rewrite <- rstrip_lstrip_comm, rstrip_idem, rstrip_lstrip_comm, lstrip_idem.
Qed.

Section ExtractionExtras.

Context `{C : Collaborators}.

Lemma respaced_same line line' :
  respaced line line' ->
  is_comment line = is_comment line' /\ line_content line = line_content line'.
Proof.
  intros [-> | (a & b & a' & b' & body & Ha & Hb & Ha' & Hb' & -> & ->)];
    [split; reflexivity |].
  split; [reflexivity |]. unfold line_content.
  rewrite !append_cons, !append_nil_l. cbn [PyStr.tail].
  now rewrite !strip_blank_around.
Qed.

Lemma find_header_respaced ls ls' :
  Forall2 respaced ls ls' ->
  match find_header ls, find_header ls' with
  | Some rest, Some rest' => Forall2 respaced rest rest'
  | None, None => True
  | _, _ => False
  end.
Proof.
  induction 1 as [|l l' ls ls' Hl Hls IH]; [exact I |].
  destruct (respaced_same l l' Hl) as [Hc Hlc].
  cbn [find_header]. rewrite <- Hc, <- Hlc.
  destruct (negb (is_comment l)); [exact IH |].
  destruct (String.eqb _ _); [exact Hls | exact IH].
Qed.

Lemma collect_respaced ls ls' acc :
  Forall2 respaced ls ls' -> collect ls acc = collect ls' acc.
Proof.
  intros H. revert acc. induction H as [|l l' ls ls' Hl Hls IH]; intros acc;
    [reflexivity |].
  destruct (respaced_same l l' Hl) as [Hc Hlc].
  cbn [collect]. rewrite <- Hc, <- Hlc.
  destruct (negb (is_comment l)); [reflexivity |].
  destruct (negb (PyStr.nonempty _)); [reflexivity |].
  destruct (Requirement _); [apply IH | reflexivity].
Qed.

(** X1. Two scripts whose lines are the same up to the whitespace that
    follows the comment marker and that ends a comment line give the same
    result of extraction: the same list, the same [None], or the same
    error. *)
Theorem X1_extraction_ignores_spacing content content' :
  Forall2 respaced (PyStr.splitlines content) (PyStr.splitlines content') ->
  _get_requirements_from_script content
  = _get_requirements_from_script content'.
Proof.
  intros H. unfold _get_requirements_from_script.
  pose proof (find_header_respaced _ _ H) as Hh.
  destruct (find_header (PyStr.splitlines content)) as [rest|],
           (find_header (PyStr.splitlines content')) as [rest'|];
    try contradiction; [|reflexivity].
  now rewrite (collect_respaced rest rest' [] Hh).
Qed.

(** X2. The block ends at the first line that is no comment or is a
    blank comment: the result is the normal forms of the lines of the
    block, in their order, one for each, and whatever comes after the end
    of the block, malformed lines and further headers included, is not
    read. *)
Theorem X2_extraction_stops_at_block_end
  content pre header good stop rest :
  PyStr.splitlines content = (pre ++ header :: good ++ stop :: rest)%list ->
  Forall (fun l => is_header l = false) pre ->
  is_header header = true ->
  Forall (fun l => is_requirement l = true) good ->
  is_comment stop = false \/ line_content stop = "" ->
  _get_requirements_from_script content = inr (Some (map normal_form good))
  /\ length (map normal_form good) = length good.
Proof.
  intros Hlines Hpre Hh Hgood Hstop.
  split; [|apply length_map].
  rewrite (extraction_of_lines _ _ _ _ Hlines Hpre Hh).
  rewrite (collect_requirements _ _ _ Hgood).
  rewrite collect_stop; [reflexivity |].
  destruct Hstop as [-> | ->]; [reflexivity | apply andb_false_r].
Qed.

End ExtractionExtras.

(* ===================================================================== *)
(** ** The classification of the target *)
(* ===================================================================== *)

Lemma startswith_spec s p :
  PyStr.startswith s p = true <-> exists r, s = p ++ r.
Proof.
  revert s. induction p as [|a p IH]; intros s.
  - split; [intros _; now exists s | reflexivity].
  - destruct s as [|b s]; cbn [PyStr.startswith].
    + split; [discriminate | intros [r Hr]; rewrite append_cons in Hr; discriminate].
    + rewrite andb_true_iff, IH. split.
      * intros [Hab [r ->]]. apply Ascii.eqb_eq in Hab as ->.
        exists r. now rewrite append_cons.
      * intros [r Hr]. rewrite append_cons in Hr. injection Hr as -> ->.
        split; [apply Ascii.eqb_refl | eauto].
Qed.

Lemma rev_app_acc s acc : String.rev_app s acc = String.rev s ++ acc.
Proof.
  unfold String.rev. revert acc. induction s as [|c s IH]; intros acc;
    [reflexivity |].
  cbn [String.rev_app]. rewrite IH, (IH (String c "")).
  now rewrite append_assoc, append_cons, append_nil_l.
Qed.

Lemma rev_cons c s : String.rev (String c s) = String.rev s ++ String c "".
Proof. unfold String.rev at 1. cbn [String.rev_app]. apply rev_app_acc. Qed.

Lemma rev_append a b : String.rev (a ++ b) = String.rev b ++ String.rev a.
Proof.
  induction a as [|c a IH].
  - rewrite append_nil_l. change (String.rev "") with "". now rewrite append_nil_r.
  - now rewrite append_cons, !rev_cons, IH, append_assoc.
Qed.

Lemma rev_involutive s : String.rev (String.rev s) = s.
Proof.
  induction s as [|c s IH]; [reflexivity |].
  rewrite rev_cons, rev_append, IH. reflexivity.
Qed.

Lemma endswith_spec s p :
  PyStr.endswith s p = true <-> exists stem, s = stem ++ p.
Proof.
  unfold PyStr.endswith. rewrite startswith_spec. split.
  - intros [r Hr]. exists (String.rev r).
    rewrite <- (rev_involutive s), Hr, rev_append. now rewrite rev_involutive.
  - intros [stem ->]. exists (String.rev stem). apply rev_append.
Qed.

Section Resolver.

Context `{C : Collaborators}.

(** X3. When the target names an existing local file, its text is the
    script: nothing is fetched, nothing changes, whether or not a path
    was required and whatever the target looks like.  When it names a
    directory, reading it raises [IsADirectoryError]. *)
Theorem X3_script_from_local_file app is_path w t text :
  (fs w !! Path_of_str app = Some (File t text) ->
   maybe_script_content app is_path w = (Ret (Some text), w))
  /\ (fs w !! Path_of_str app = Some (Dir t) ->
      maybe_script_content app is_path w
      = (Raise (IsADirectoryError (Path_of_str app)), w)).
Proof.
  split; intros H; unfold maybe_script_content, FS.exists_, FS.read_text;
    now rewrite bind_get, (exists_Some _ _ _ H), bind_assoc, bind_get, H.
Qed.

(** X4. When nothing exists at the target: if a path was required,
    [PipxError] names the missing path; otherwise a target without URL
    scheme is a package ([None]), and a URL that does not end in [.py] is
    refused with [PipxError].  In the three cases nothing is fetched and
    nothing changes. *)
Theorem X4_script_content_without_file app w :
  fs w !! Path_of_str app = None ->
  maybe_script_content app true w
  = (Raise (PipxError ("The specified path " ++ app ++ " does not exist")), w)
  /\ (urlparse_scheme app = "" ->
      maybe_script_content app false w = (Ret None, w))
  /\ (urlparse_scheme app <> "" ->
      (~ exists stem, app = stem ++ ".py") ->
      exists msg, maybe_script_content app false w = (Raise (PipxError msg), w)).
Proof.
  intros H. unfold maybe_script_content, FS.exists_.
  rewrite !bind_get, (exists_None _ _ H). split; [reflexivity |]. split.
  - intros ->. reflexivity.
  - intros Hs Hpy. apply nonempty_true in Hs. rewrite Hs.
    destruct (PyStr.endswith app ".py") eqn:E.
    + apply endswith_spec in E. contradiction.
    + eexists. reflexivity.
Qed.

(** X5. A URL that ends in [.py], with no local file of that name, is
    fetched once: the text received is the script, and a failure of the
    transport becomes a [PipxError] carrying its text, after a debug
    entry in the log.  The filesystem is not touched. *)
Theorem X5_script_from_url stem w :
  let app := stem ++ ".py" in
  fs w !! Path_of_str app = None ->
  urlparse_scheme app <> "" ->
  let fetching :=
    (trace w ++ [Log "INFO"
                     "Detected url. Downloading and executing as a Python file.";
                 UrlOpen app])%list in
  maybe_script_content app false w
  = match urlopen_read app with
    | inr text => (Ret (Some text), World (fs w) (clock w) fetching)
    | inl e =>
        (Raise (PipxError e),
         World (fs w) (clock w)
               (fetching ++ [Log "DEBUG" "Uncaught Exception:"]))
    end.
Proof.
  intros app H Hs fetching. unfold maybe_script_content, FS.exists_.
  rewrite !bind_get, (exists_None _ _ H).
  apply nonempty_true in Hs. rewrite Hs.
  rewrite (proj2 (endswith_spec app ".py")); [|now exists stem].
  cbn [negb]. unfold logger_info, _http_get_request, logger_debug.
  rewrite bind_emit, bind_assoc, bind_emit.
  subst fetching.
  destruct (urlopen_read app) as [e | text].
  - rewrite !bind_assoc, bind_emit. cbn. now rewrite <- !app_assoc.
  - rewrite bind_ret. cbn. now rewrite <- !app_assoc.
Qed.

End Resolver.

(* ===================================================================== *)
(** ** Runs that use what is there *)
(* ===================================================================== *)

Section RunExtras.

Context `{C : Collaborators}.

Lemma fingerprint_child requirements python pip_args venv_args :
  FS.is_child PIPX_VENV_CACHEDIR
    (_get_temporary_venv_path requirements python pip_args venv_args).
Proof. apply child_pjoin. Qed.

(** X12. A script whose environment is in the cache and not expired,
    run with the cache in use, is launched with the interpreter of that
    environment; the provisioner is not called, and the environment is
    left as it was. *)
Theorem X12_script_run_reuses_live_environment
  content app_args python pip_args venv_args verbose requirements w t n :
  _get_requirements_from_script content = inr (Some requirements) ->
  let venv_dir :=
    _get_temporary_venv_path requirements python pip_args venv_args in
  fs w !! PIPX_VENV_CACHEDIR = Some (Dir t) ->
  fs w !! venv_dir = Some n ->
  doomed w venv_dir = false ->
  exists w',
    run_script content app_args python pip_args venv_args verbose true w
    = (Replaced ([path_str (venv_python_path venv_dir); "-c"; content]
                 ++ app_args)%list, w')
    /\ forall p, venv_dir `prefix_of` p -> fs w' !! p = fs w !! p.
Proof.
  intros Hreq venv_dir Hd Hn Hlive.
  destruct (prepare_keeps venv_dir None true w t Hd
              (fingerprint_child _ _ _ _) Hlive (or_introl eq_refl))
    as (w1 & Hprep & _ & Hkeep).
  rewrite (run_script_cached _ _ _ _ _ _ _ _ Hreq). cbv zeta. fold venv_dir.
  rewrite (bind_Ret _ _ _ _ _ Hprep).
  unfold FS.exists_. rewrite bind_get.
  assert (Hn1 : fs w1 !! venv_dir = Some n) by (now rewrite Hkeep).
  rewrite (exists_Some _ _ _ Hn1). unfold logger_info, exec_app.
  rewrite bind_emit. eexists. split; [reflexivity |]. exact Hkeep.
Qed.

(** X13. A script run with caching disabled never reuses: the
    directory of its environment is deleted with all that is under it,
    and the run goes on with the creation of the environment, the
    installation of the requirements and the launch. *)
Theorem X13_script_run_without_cache_rebuilds
  content app_args python pip_args venv_args verbose requirements w t t' :
  _get_requirements_from_script content = inr (Some requirements) ->
  let venv_dir :=
    _get_temporary_venv_path requirements python pip_args venv_args in
  fs w !! PIPX_VENV_CACHEDIR = Some (Dir t) ->
  fs w !! venv_dir = Some (Dir t') ->
  exists w1,
    _prepare_venv_cache venv_dir None false w = (Ret tt, w1)
    /\ (forall p, venv_dir `prefix_of` p -> fs w1 !! p = None)
    /\ run_script content app_args python pip_args venv_args verbose false w
       = (venv_create_venv venv_dir python verbose venv_args pip_args ;;
          venv_install_unmanaged_packages venv_dir python verbose
                                          requirements pip_args ;;
          exec_app ([path_str (venv_python_path venv_dir); "-c"; content]
                    ++ app_args)%list) w1.
Proof.
  intros Hreq venv_dir Hd Hn.
  destruct (prepare_removes venv_dir None w t t' Hd
              (fingerprint_child _ _ _ _) Hn (or_introl eq_refl))
    as (w1 & Hprep & Hgone & _).
  exists w1. split; [exact Hprep |]. split; [exact Hgone |].
  rewrite (run_script_cached _ _ _ _ _ _ _ _ Hreq). cbv zeta. fold venv_dir.
  rewrite (bind_Ret _ _ _ _ _ Hprep).
  unfold FS.exists_. rewrite bind_get.
  rewrite (exists_None _ _ (Hgone venv_dir (reflexivity _))).
  now rewrite bind_assoc.
Qed.

(** X14. When the project-local package directory has the executable,
    the package run launches it with the arguments, with or without the
    [--pypackages] flag and whatever the cache holds; the filesystem and
    the clock are as before. *)
Theorem X14_local_pypackages_binary_wins
  app package_or_url app_args python pip_args venv_args pypackages verbose
  use_cache w :
  is_Some (fs w !! get_pypackage_bin_path app) ->
  let outcome :=
    run_package app package_or_url app_args python pip_args venv_args
                pypackages verbose use_cache w in
  fst outcome = Replaced (path_str (get_pypackage_bin_path app) :: app_args)
  /\ fs (snd outcome) = fs w
  /\ clock (snd outcome) = clock w.
Proof.
  intros [n Hn] outcome. subst outcome.
  unfold run_package, FS.exists_, logger_warning, logger_info,
    run_pypackage_bin, exec_app.
  rewrite bind_get.
  destruct (which app w) eqn:Hw; destruct WINDOWS; run_steps;
    rewrite ?Hw; run_steps; rewrite (exists_Some _ _ _ Hn); run_steps;
    repeat split.
Qed.

(** X15. With the [--pypackages] flag and no executable in the
    project-local package directory, the package run raises [PipxError]
    with a message that gives the path looked for, before the cache is
    read or swept: the filesystem and the clock are as before. *)
Theorem X15_pypackages_flag_without_binary
  app package_or_url app_args python pip_args venv_args verbose use_cache w :
  fs w !! get_pypackage_bin_path app = None ->
  let outcome :=
    run_package app package_or_url app_args python pip_args venv_args
                true verbose use_cache w in
  (exists msg,
      fst outcome = Raise (PipxError msg)
      /\ contains msg (path_str (get_pypackage_bin_path app)))
  /\ fs (snd outcome) = fs w
  /\ clock (snd outcome) = clock w.
Proof.
  intros Hn outcome. subst outcome.
  unfold run_package, FS.exists_, logger_warning, logger_info.
  rewrite bind_get.
  destruct (which app w) eqn:Hw; destruct WINDOWS; run_steps;
    rewrite ?Hw; run_steps; rewrite (exists_None _ _ Hn); run_steps;
    (split; [|split; reflexivity]);
    (eexists; split; [reflexivity |]);
    apply contains_app_r, contains_app_l, contains_refl.
Qed.

(** X16. A package run with the cache in use, no project-local
    executable, and an environment in the cache that is not expired and
    has the application, launches the application from that environment
    under its file name on the platform; nothing is provisioned and the
    environment is left as it was. *)
Theorem X16_package_run_reuses_cached_app
  app package_or_url app_args python pip_args venv_args verbose w t n :
  let venv_dir :=
    _get_temporary_venv_path [package_or_url] python pip_args venv_args in
  let app_filename := if WINDOWS then app ++ ".exe" else app in
  fs w !! get_pypackage_bin_path app = None ->
  fs w !! PIPX_VENV_CACHEDIR = Some (Dir t) ->
  fs w !! venv_dir = Some n ->
  doomed w venv_dir = false ->
  (forall w1, (forall p, venv_dir `prefix_of` p -> fs w1 !! p = fs w !! p) ->
              venv_has_app venv_dir app app_filename w1 = true) ->
  exists w',
    run_package app package_or_url app_args python pip_args venv_args
                false verbose true w
    = (Replaced (path_str (venv_bin_path venv_dir // app_filename) :: app_args),
       w')
    /\ forall p, venv_dir `prefix_of` p -> fs w' !! p = fs w !! p.
Proof.
  intros venv_dir app_filename Hlocal Hd Hn Hlive Happ.
  destruct w as [f c tr0]. cbn [fs clock trace] in *.
  assert (Hprep : forall tr,
             exists w1,
               _prepare_venv_cache venv_dir
                 (Some (venv_bin_path venv_dir // app_filename)) true
                 (World f c tr) = (Ret tt, w1)
               /\ forall p, venv_dir `prefix_of` p -> fs w1 !! p = f !! p).
  { intros tr.
    destruct (prepare_keeps venv_dir
                (Some (venv_bin_path venv_dir
                       // (if WINDOWS then app ++ ".exe" else app)))
                true (World f c tr) t Hd (fingerprint_child _ _ _ _))
      as (w1 & Hrun & _ & Hkeep); [exact Hlive | now left |].
    exists w1. split; [exact Hrun | exact Hkeep]. }
  pose proof (exists_None _ (World f c tr0) Hlocal) as Hex.
  cbn [fs] in Hex.
  unfold run_package, FS.exists_, logger_warning, logger_info.
  rewrite bind_get. subst app_filename.
  destruct (which app (World f c tr0)) eqn:Hw; destruct WINDOWS; run_steps;
    rewrite ?Hw; run_steps; rewrite Hex; run_steps;
    fold venv_dir;
    match goal with
    | |- context [bind (_prepare_venv_cache _ _ _) _ (World _ _ ?tr)] =>
        destruct (Hprep tr) as (w1 & Hrun & Hkeep)
    end;
    rewrite (bind_Ret _ _ _ _ _ Hrun), bind_get, (Happ w1 Hkeep);
    unfold run_app, exec_app; rewrite bind_emit;
    (eexists; split; [reflexivity | exact Hkeep]).
Qed.

(** X17. After provisioning, when the environment has the requested
    application, that application is launched under the requested file
    name, with no note and no substitution.  With the cache in use the
    filesystem is as provisioning left it; with caching disabled the only
    change is the expiration marker. *)
Theorem X17_download_and_run_launches_found_app
  (venv_dir : Path) (package_or_url app app_filename : string)
  (app_args : list string) (python : string)
  (pip_args venv_args : list string) (use_cache verbose : bool)
  (w w1 w2 w3 : world) (package_name : string) (t : Z) :
  venv_create_venv venv_dir python verbose venv_args pip_args w
  = (Ret tt, w1) ->
  match fst (venv_main_package venv_dir w1) with
  | Some package => ret package
  | None => package_name_from_spec package_or_url python pip_args verbose
  end w1 = (Ret package_name, w2) ->
  venv_install_package venv_dir python verbose package_name package_or_url
                       pip_args w2 = (Ret tt, w3) ->
  fs w3 !! venv_dir = Some (Dir t) ->
  venv_has_app venv_dir app app_filename w3 = true ->
  exists w',
    _download_and_run venv_dir package_or_url app app_filename app_args
                      python pip_args venv_args use_cache verbose w
    = (Replaced (path_str (venv_bin_path venv_dir // app_filename) :: app_args),
       w')
    /\ trace w' = trace w3
    /\ clock w' = clock w3
    /\ (forall p, p <> venv_dir // VENV_EXPIRED_FILENAME ->
                  fs w' !! p = fs w3 !! p)
    /\ (if use_cache
        then fs w' = fs w3
        else is_Some (fs w' !! (venv_dir // VENV_EXPIRED_FILENAME))).
Proof.
  intros Hcreate Hname Hinstall Hdir Hfound.
  unfold _download_and_run.
  rewrite (bind_Ret _ _ _ _ _ Hcreate), bind_get.
  rewrite (bind_Ret _ _ _ _ _ Hname).
  rewrite (bind_Ret _ _ _ _ _ Hinstall).
  rewrite bind_get, Hfound. cbn [negb]. rewrite bind_ret. cbn [fst snd].
  destruct use_cache; cbn [negb].
  - rewrite bind_ret. exists w3. repeat split.
  - destruct (touch_in_dir venv_dir VENV_EXPIRED_FILENAME t w3 Hdir)
      as [n Htouch].
    rewrite (bind_Ret _ _ _ _ _ Htouch). eexists. split; [reflexivity |].
    cbn [fs clock trace]. repeat split.
    + intros p Hp. now rewrite lookup_insert_ne.
    + rewrite lookup_insert_eq. eauto.
Qed.

End RunExtras.

(* ===================================================================== *)
(** ** More on the fingerprint *)
(* ===================================================================== *)

Lemma all_chars_app P a b :
  all_chars P (a ++ b) = all_chars P a && all_chars P b.
Proof.
  induction a as [|c a IH]; [reflexivity |].
  rewrite append_cons. cbn [all_chars]. now rewrite IH, andb_assoc.
Qed.

Lemma hexdigit_hex d : (d < 16)%N -> is_hex (Hashlib.hexdigit d) = true.
Proof.
  intros H.
  assert (Hall : forallb (fun i => is_hex (Hashlib.hexdigit (N.of_nat i)))
                         (seq 0 16) = true) by (vm_compute; reflexivity).
  rewrite forallb_forall in Hall.
  rewrite <- (N2Nat.id d). apply Hall, in_seq. lia.
Qed.

Lemma all_chars_of_list P l :
  all_chars P (string_of_list_ascii l) = forallb P l.
Proof. induction l as [|c l IH]; [reflexivity |]. cbn. now rewrite IH. Qed.

Lemma hex_word_hex x : all_chars is_hex (Hashlib.hex_word x) = true.
Proof.
  unfold Hashlib.hex_word. rewrite all_chars_of_list.
  apply forallb_forall. intros c Hc. apply in_map_iff in Hc as (i & <- & _).
  apply hexdigit_hex. apply N.mod_lt. lia.
Qed.

Lemma hex_words_hex ws :
  all_chars is_hex (String.concat "" (map Hashlib.hex_word ws)) = true.
Proof.
  induction ws as [|x ws IH]; [reflexivity |].
  destruct ws as [|y ws].
  - apply hex_word_hex.
  - change (String.concat "" (map Hashlib.hex_word (x :: y :: ws)))
      with (Hashlib.hex_word x ++ "" ++
            String.concat "" (map Hashlib.hex_word (y :: ws))).
    now rewrite append_nil_l, all_chars_app, hex_word_hex, IH.
Qed.

Lemma slice_to_all_chars P n s :
  all_chars P s = true -> all_chars P (PyStr.slice_to n s) = true.
Proof.
  intros H. destruct (slice_to_prefix n s) as [rest Hrest].
  rewrite Hrest, all_chars_app in H. now apply andb_true_iff in H as [H _].
Qed.

Section FingerprintExtras.

Context `{C : Collaborators}.

(** X18. Whatever the requirements, the interpreter and the arguments
    are, the directory of the environment is directly inside the cache
    directory, and its name is 15 lowercase hexadecimal digits. *)
Theorem X18_fingerprint_is_one_hex_component
  requirements python pip_args venv_args :
  exists name,
    _get_temporary_venv_path requirements python pip_args venv_args
    = PIPX_VENV_CACHEDIR // name
    /\ String.length name = 15%nat
    /\ all_chars is_hex name = true
    /\ FS.parent (_get_temporary_venv_path requirements python pip_args
                                           venv_args)
       = PIPX_VENV_CACHEDIR.
Proof.
  rewrite fingerprint_fed. eexists. split; [reflexivity |].
  split; [|split].
  - apply slice_to_length. rewrite hexdigest_length. lia.
  - apply slice_to_all_chars. unfold Hashlib.hexdigest. apply hex_words_hex.
  - apply parent_pjoin.
Qed.

Lemma encode_join_fields r p a v :
  (Hashlib.encode (PyStr.join "" r) ++ Hashlib.encode p
   ++ Hashlib.encode (PyStr.join "" a) ++ Hashlib.encode (PyStr.join "" v))%list
  = Hashlib.encode (PyStr.join "" r ++ p ++ PyStr.join "" a ++ PyStr.join "" v).
Proof. now rewrite !encode_app. Qed.

(** X19. The fingerprint depends only on the concatenation of the four
    fields: inputs whose requirements, interpreter, provisioning
    arguments and environment arguments concatenate to the same text give
    the same directory, wherever the boundaries between the fields lie. *)
Theorem X19_fingerprint_field_boundaries
  r1 p1 a1 v1 r2 p2 a2 v2 :
  PyStr.join "" r1 ++ p1 ++ PyStr.join "" a1 ++ PyStr.join "" v1
  = PyStr.join "" r2 ++ p2 ++ PyStr.join "" a2 ++ PyStr.join "" v2 ->
  _get_temporary_venv_path r1 p1 a1 v1 = _get_temporary_venv_path r2 p2 a2 v2.
Proof.
  intros H. rewrite !fingerprint_fed, !encode_join_fields. now rewrite H.
Qed.

End FingerprintExtras.

(* ===================================================================== *)
(** ** More on the advisory version check *)
(* ===================================================================== *)

Section OracleExtras.

Context `{C : Collaborators}.

(** X20. The query of the latest version returns [None] or raises
    [IndexError], whatever the oracle answers, and leaves the filesystem
    and the clock alone.  When the page has a version, the version is
    printed, and [None] is returned all the same. *)
Theorem X20_latest_version_is_never_returned package_name w :
  let outcome := _get_latest_version package_name w in
  (fst outcome = Ret None
   \/ exists msg, fst outcome = Raise (IndexError msg))
  /\ fs (snd outcome) = fs w
  /\ clock (snd outcome) = clock w
  /\ (forall html text before version,
        requests_get (pypi_url package_name) = inr html ->
        html <> "" ->
        select_one_text html ".package-header__name" = Some text ->
        PyStr.split (PyStr.strip text) = (before ++ [version])%list ->
        outcome
        = (Ret None,
           World (fs w) (clock w)
                 (trace w ++ [HttpGet (pypi_url package_name);
                              Print ("The latest version of " ++ package_name
                                     ++ " is: " ++ version)]))).
Proof.
  intros outcome. subst outcome.
  destruct (get_latest_version_outcome package_name w)
    as (more & Hout & Hw & _).
  split; [exact Hout |]. rewrite Hw. split; [reflexivity |].
  split; [reflexivity |].
  intros html text before version Hget Hne Hsel Hsplit.
  unfold _get_latest_version. fold (pypi_url package_name).
  rewrite bind_emit, Hget.
  apply nonempty_true in Hne. rewrite Hne, Hsel.
  unfold last_item. rewrite Hsplit, rev_app_distr. cbn [List.rev app].
  unfold print. run_steps. cbn [ret]. now rewrite <- app_assoc.
Qed.

(** X21. Whatever its arguments and the world, [run] ends with the
    exception that [check_version] raises: nothing is launched, and no
    file other than the marker file of the version check changes. *)
Theorem X21_run_always_raises
  app spec is_path app_args python pip_args venv_args pypackages verbose
  use_cache w :
  exists e w',
    run app spec is_path app_args python pip_args venv_args pypackages
        verbose use_cache w = (Raise e, w')
    /\ check_version app w = (Raise e, w')
    /\ clock w' = clock w
    /\ (forall p, p <> version_check_marker -> fs w' !! p = fs w !! p).
Proof.
  destruct (check_version_raises app w) as (e & w' & H).
  exists e, w'. split; [now apply run_raises |]. split; [exact H |].
  pose proof (check_version_fs app w) as Hfs. rewrite H in Hfs. cbn [snd] in Hfs.
  split.
  - destruct (fs w !! version_check_marker) as [[t text | t] |] eqn:Hm.
    + destruct (check_version_present app w t text Hm) as (e' & more & He & _).
      rewrite He in H. now injection H as _ <-.
    + rewrite (check_version_directory app w t Hm) in H. now injection H as _ <-.
    + rewrite (check_version_absent app w Hm) in H. now injection H as _ <-.
  - intros p Hp. rewrite Hfs.
    destruct (fs w !! version_check_marker) as [[? ? | ?] |]; try reflexivity.
    now rewrite lookup_insert_ne.
Qed.

End OracleExtras.

(* ===================================================================== *)
(** ** The further properties on the reference instance *)
(* ===================================================================== *)

Module ExtraWitnesses.

Import DemoCache.

Lemma X1_witness :
  @_get_requirements_from_script Demo.offline
    ("#Requirements:" ++ NL ++ "#requests>=2")
  = @_get_requirements_from_script Demo.offline
      ("#   Requirements:  " ++ NL ++ "# requests>=2   ").
Proof.
  apply X1_extraction_ignores_spacing.
  change (Forall2 respaced ["#Requirements:"; "#requests>=2"]
                           ["#   Requirements:  "; "# requests>=2   "]).
  constructor; [|constructor; [|constructor]].
  - right. exists "", "", "   ", "  ", "Requirements:".
    repeat split; reflexivity.
  - right. exists "", "", " ", "   ", "requests>=2".
    repeat split; reflexivity.
Defined.

Lemma X2_witness :
  @_get_requirements_from_script Demo.offline
    ("# Requirements:" ++ NL ++ "# six" ++ NL ++ "" ++ NL ++ "# ==not read"
     ++ NL ++ "# Requirements:")
  = inr (Some ["six"]).
Proof.
  destruct (@X2_extraction_stops_at_block_end
              Demo.offline
              ("# Requirements:" ++ NL ++ "# six" ++ NL ++ "" ++ NL
               ++ "# ==not read" ++ NL ++ "# Requirements:")
              [] "# Requirements:" ["# six"] ""
              ["# ==not read"; "# Requirements:"]) as [H _].
  - reflexivity.
  - constructor.
  - reflexivity.
  - repeat constructor.
  - left. reflexivity.
  - exact H.
Defined.

Lemma X3_witness :
  @maybe_script_content Demo.offline "script.py" false cache
  = (Ret (Some script_with_header), cache).
Proof.
  apply (proj1 (@X3_script_from_local_file Demo.offline "script.py" false
                  cache 0 script_with_header)).
  vm_compute. reflexivity.
Defined.

Lemma X4_witness :
  @maybe_script_content Demo.offline "cowsay" false cache = (Ret None, cache).
Proof.
  apply (proj1 (proj2 (@X4_script_content_without_file Demo.offline "cowsay"
                         cache eq_refl))).
  reflexivity.
Defined.

Lemma X5_witness :
  fst (@maybe_script_content Demo.offline "https://example.org/tool.py" false
         cache)
  = Raise (PipxError "unreachable").
Proof.
  change "https://example.org/tool.py"
    with ("https://example.org/tool" ++ ".py").
  rewrite (@X5_script_from_url Demo.offline "https://example.org/tool" cache
             eq_refl).
  - reflexivity.
  - discriminate.
Defined.

Lemma X6_witness :
  exists w',
    @_remove_all_expired_venvs Demo.offline cache = (Ret tt, w')
    /\ fs w' !! (old // "bin" // "python") = None
    /\ fs w' !! (marked // VENV_EXPIRED_FILENAME) = None.
Proof.
  destruct (@X6_sweep_removes_expired_entries Demo.offline cache 0 eq_refl)
    as (w' & Hrun & _ & Hgone & _).
  exists w'. split; [exact Hrun |]. split.
  - apply (Hgone old).
    + split; [reflexivity | discriminate].
    + vm_compute. reflexivity.
    + now exists ["bin"; "python"].
  - apply (Hgone marked).
    + split; [reflexivity | discriminate].
    + vm_compute. reflexivity.
    + now exists [VENV_EXPIRED_FILENAME].
Defined.

Lemma X7_witness :
  exists w',
    @_remove_all_expired_venvs Demo.offline cache = (Ret tt, w')
    /\ fs w' !! (live // "bin" // "python") = Some (File yesterday "")
    /\ fs w' !! ["venvs"] = Some (Dir 0).
Proof.
  destruct (@X7_sweep_keeps_everything_else Demo.offline cache 0 eq_refl)
    as (w' & Hrun & _ & _ & Hout & Hlive).
  exists w'. split; [exact Hrun |]. split.
  - rewrite (Hlive live).
    + vm_compute. reflexivity.
    + split; [reflexivity | discriminate].
    + vm_compute. reflexivity.
    + now exists ["bin"; "python"].
  - rewrite Hout; [vm_compute; reflexivity |].
    intros [k Hk]. discriminate Hk.
Defined.


Lemma X9_witness :
  @_remove_all_expired_venvs Demo.offline no_cache
  = (Raise (FileNotFoundError ["cache"]), no_cache).
Proof.
  apply (proj1 (@X9_sweep_without_cache_directory Demo.offline no_cache)).
  vm_compute. reflexivity.
Defined.

Lemma live_child : FS.is_child ["cache"] live.
Proof. split; [reflexivity | discriminate]. Qed.

Lemma X10_witness :
  exists w',
    @_prepare_venv_cache Demo.offline live None true cache = (Ret tt, w')
    /\ fs w' !! (live // "bin" // "python") = Some (File yesterday "").
Proof.
  destruct (@X10_prepare_keeps_live_environment Demo.offline live None true
              cache 0 eq_refl live_child eq_refl (or_introl eq_refl))
    as (w' & Hrun & _ & _ & Hkeep).
  exists w'. split; [exact Hrun |].
  rewrite Hkeep; [vm_compute; reflexivity | now exists ["bin"; "python"]].
Defined.

Lemma X11_witness :
  exists w',
    @_prepare_venv_cache Demo.offline live None false cache = (Ret tt, w')
    /\ fs w' !! (live // "bin" // "python") = None.
Proof.
  destruct (@X11_prepare_without_cache_removes Demo.offline live None cache
              0 yesterday eq_refl live_child eq_refl (or_introl eq_refl))
    as (w' & Hrun & Hgone & _).
  exists w'. split; [exact Hrun |].
  apply Hgone. now exists ["bin"; "python"].
Defined.

Lemma X12_witness :
  exists w',
    @run_script Demo.offline script_with_header ["--fast"] "python3" [] []
                false true cache
    = (Replaced [path_str (script_env // "bin" // "python"); "-c";
                 script_with_header; "--fast"], w')
    /\ fs w' !! (script_env // "bin" // "python")
       = Some (File yesterday "").
Proof.
  destruct (@X12_script_run_reuses_live_environment Demo.offline
              script_with_header ["--fast"] "python3" [] [] false
              ["requests>=2"] cache 0 (Dir yesterday))
    as (w' & Hrun & Hkeep).
  - reflexivity.
  - reflexivity.
  - vm_compute. reflexivity.
  - vm_compute. reflexivity.
  - exists w'. split; [exact Hrun |].
    rewrite Hkeep; [vm_compute; reflexivity | now exists ["bin"; "python"]].
Defined.

Lemma X13_witness :
  exists w1,
    @_prepare_venv_cache Demo.offline script_env None false cache
    = (Ret tt, w1)
    /\ fs w1 !! script_env = None.
Proof.
  destruct (@X13_script_run_without_cache_rebuilds Demo.offline
              script_with_header [] "python3" [] [] false
              ["requests>=2"] cache 0 yesterday)
    as (w1 & Hprep & Hgone & _).
  - reflexivity.
  - reflexivity.
  - vm_compute. reflexivity.
  - exists w1. split; [exact Hprep |]. now apply Hgone.
Defined.

Lemma X14_witness :
  fst (@run_package Demo.offline "tool" "tool" ["-v"] "python3" [] []
                    false false true cache)
  = Replaced ["__pypackages__/bin/tool"; "-v"].
Proof.
  apply (@X14_local_pypackages_binary_wins Demo.offline "tool" "tool" ["-v"]
           "python3" [] [] false false true cache).
  exists (File 0 ""). vm_compute. reflexivity.
Defined.

Lemma X15_witness :
  fs (snd (@run_package Demo.offline "cowsay" "cowsay" [] "python3" [] []
                        true false true cache))
  = fs cache.
Proof.
  apply (@X15_pypackages_flag_without_binary Demo.offline "cowsay" "cowsay"
           [] "python3" [] [] false true cache).
  vm_compute. reflexivity.
Defined.

Lemma X16_witness :
  exists w',
    @run_package Demo.offline "cowsay" "cowsay" ["moo"] "python3" [] []
                 false false true cache
    = (Replaced [path_str (cowsay_env // "bin" // "cowsay"); "moo"], w').
Proof.
  destruct (@X16_package_run_reuses_cached_app Demo.offline "cowsay" "cowsay"
              ["moo"] "python3" [] [] false cache 0 (Dir yesterday))
    as (w' & Hrun & _).
  - vm_compute. reflexivity.
  - reflexivity.
  - vm_compute. reflexivity.
  - vm_compute. reflexivity.
  - intros w1 Hkeep.
    change (Demo.has_app cowsay_env "cowsay" w1 = true).
    unfold Demo.has_app. rewrite Hkeep; [vm_compute; reflexivity |].
    now exists ["bin"; "cowsay"].
  - exists w'. exact Hrun.
Defined.

Lemma X17_witness :
  exists w',
    @_download_and_run Demo.offline Demo.entry "cowsay" "cowsay" "cowsay"
                       ["moo"] "python3" [] [] true false
                       (Demo.empty_world 1000)
    = (Replaced ["cache/0123456789abcde/bin/cowsay"; "moo"], w').
Proof.
  destruct (@X17_download_and_run_launches_found_app
              Demo.offline Demo.entry "cowsay" "cowsay" "cowsay" ["moo"]
              "python3" [] [] true false (Demo.empty_world 1000)
              (Demo.built (Demo.empty_world 1000))
              (Demo.built (Demo.empty_world 1000))
              (Demo.installed "cowsay" (Demo.built (Demo.empty_world 1000)))
              "cowsay" 1000)
    as (w' & Hrun & _).
  - vm_compute. reflexivity.
  - vm_compute. reflexivity.
  - vm_compute. reflexivity.
  - vm_compute. reflexivity.
  - vm_compute. reflexivity.
  - exists w'. exact Hrun.
Defined.

Lemma X19_witness :
  @_get_temporary_venv_path Demo.offline ["black"] "python3" ["--pre"] []
  = @_get_temporary_venv_path Demo.offline ["black"] "python3" [] ["--pre"]
  /\ @_get_temporary_venv_path Demo.offline ["black"] "python3.11" [] []
     = @_get_temporary_venv_path Demo.offline ["blackpython"] "3.11" [] [].
Proof.
  split; apply X19_fingerprint_field_boundaries; reflexivity.
Defined.

Lemma X20_witness :
  @_get_latest_version Demo.online "black" cache
  = (Ret None,
     World (fs cache) (clock cache)
           [HttpGet "https://pypi.org/project/black/";
            Print "The latest version of black is: 2.0"]).
Proof.
  apply (proj2 (proj2 (proj2 (@X20_latest_version_is_never_returned
                                Demo.online "black" cache)))
           "black 2.0" "black 2.0" ["black"] "2.0").
  - reflexivity.
  - discriminate.
  - reflexivity.
  - reflexivity.
Defined.

End ExtraWitnesses.
